(** * matterclient: a shallow embedding of [matterclient.go]

    The client keeps a session against a Mattermost backend: [Login]
    authenticates and dials the websocket, [WsReceiver] reads frames and
    turns them into [Message]s, and a handful of request/response methods
    resolve channel names through two cached channel lists.

    The Go code is stateful and talks to three external packages
    (mattermost's [model], gorilla's [websocket], jpillora's [backoff]).
    The embedding threads a [World] (the [MMClient] struct plus the trace
    of everything the client did to the outside) through a small monad
    with three outcomes: a normal return, a Go panic, and "still running"
    for the retry loops that only stop when the backend lets them. *)

From Stdlib Require Import ZArith Ascii String List.
From stdpp Require Import base option list strings gmap.

Open Scope string_scope.

(** ** The [strings] package, as far as the client uses it *)

Module strings.

(** [strings.Contains(s, substr)]. *)
Fixpoint Contains (s substr : string) : bool :=
  if String.prefix substr s then true
  else match s with
       | EmptyString => false
       | String _ s' => Contains s' substr
       end.

(** Worker of [Split]: [skip] counts the bytes of a separator that was
    just recognised and still has to be dropped, [cur] is the piece
    being collected. *)
Fixpoint split_go (sep : string) (skip : nat) (cur s : string) : list string :=
  match s with
  | EmptyString => [cur]
  | String c s' =>
      match skip with
      | S k => split_go sep k cur s'
      | O =>
          if String.prefix sep s
          then cur :: split_go sep (String.length sep - 1) "" s'
          else split_go sep 0 (cur +:+ String c "") s'
      end
  end.

(** [strings.Split(s, sep)] for a non-empty [sep] (the client only
    splits at ["__"]): the pieces between the non-overlapping
    occurrences of [sep], found left to right. *)
Definition Split (s sep : string) : list string := split_go sep 0 "" s.

(** Worker of [Replace]; [n] is the number of replacements left. *)
Fixpoint replace_go (old new : string) (skip n : nat) (s : string) : string :=
  match s with
  | EmptyString => ""
  | String c s' =>
      match skip with
      | S k => replace_go old new k n s'
      | O =>
          match n with
          | O => s
          | S n' =>
              if String.prefix old s
              then new +:+ replace_go old new (String.length old - 1) n' s'
              else String c (replace_go old new 0 n s')
          end
      end
  end.

(** [strings.Replace(s, old, new, n)] for a non-empty [old] and
    [n >= 0]: the first [n] occurrences of [old] become [new]. *)
Definition Replace (s old new : string) (n : nat) : string :=
  replace_go old new 0 n s.

End strings.

(** ** The [model] package: the shapes the client reads *)

Module model.

Record User := mkUser {
  User_Id : string;
  User_Username : string;
  User_TeamId : string;
}.

Record Team := mkTeam {
  Team_Id : string;
  Team_Name : string;
}.

Record Channel := mkChannel {
  Channel_Id : string;
  Channel_Name : string;
  Channel_Header : string;
}.

(** [model.ChannelList]; only its [Channels] slice is read. *)
Record ChannelList := mkChannelList {
  ChannelList_Channels : list Channel;
}.

Record Post := mkPost {
  Post_UserId : string;
  Post_ChannelId : string;
  Post_Message : string;
}.

Record PostList := mkPostList {
  PostList_Order : list string;
  PostList_Posts : gmap string Post;
}.

(** [model.AppError]: the two fields [Login] looks at. *)
Record AppError := mkAppError {
  AppError_Message : string;
  AppError_DetailedError : string;
}.

(** The frame read from the websocket, [model.Message]. *)
Record RawMessage := mkRawMessage {
  Raw_Action : string;
  Raw_Props : gmap string string;
}.

(** The action of a frame that carries a post. The constant is
    mattermost's; which string it is matters to no property below. *)
Definition ACTION_POSTED : string := "posted".

(** [Result.Data] is an [interface{}]; the client casts it with a type
    assertion that panics on any other dynamic type. A pointer type
    keeps its nil: [DUser None] is a nil pointer to a [model.User]. *)
Inductive Data :=
| DNil
| DUser (u : option User)
| DTeam (t : option Team)
| DProfiles (us : gmap string User)
| DChannelList (cl : option ChannelList)
| DPostList (pl : option PostList)
| DOther (tag : string).

Record Result := mkResult {
  Result_Data : Data;
}.

End model.

(** Go's [error] values built by [errors.New]. *)
Inductive error := errors_New (msg : string).

(** ** The client's own types *)

Record Credentials := mkCredentials {
  cred_Login : string;
  cred_Team : string;
  cred_Pass : string;
  cred_Server : string;
  cred_NoTLS : bool;
}.

Record Message := mkMessage {
  Msg_Raw : model.RawMessage;
  Msg_Post : option model.Post;
  Msg_Team : string;
  Msg_Channel : string;
  Msg_Username : string;
  Msg_Text : string;
}.

(** [model.Client] as the client sees it: the URL it was created with. *)
Record ClientHandle := mkClient {
  Client_Url : string;
}.

(** A dialled websocket connection. *)
Definition Conn := nat.

(** [MMClient]. Pointer fields are [option]s ([None] is nil); a nil
    [Users] map reads like the empty map, and its entries are the
    profiles the decoder allocated. [MessageChan] is the [EEmit] events
    of the trace. *)
Record MMClient := mkMMClient {
  Creds : Credentials;
  Client : option ClientHandle;
  WsClient : option Conn;
  Channels : option model.ChannelList;
  MoreChannels : option model.ChannelList;
  User : option model.User;
  Users : gmap string model.User;
  Team : option model.Team;
}.

(** [New(login, pass, team, server)]. *)
Definition New (login pass team server : string) : MMClient :=
  {| Creds := {| cred_Login := login; cred_Team := team; cred_Pass := pass;
                 cred_Server := server; cred_NoTLS := false |};
     Client := None; WsClient := None; Channels := None;
     MoreChannels := None; User := None; Users := ∅; Team := None |}.

(** ** What the client does to the outside *)

(** The REST requests the client makes through [model.Client], with
    their arguments. *)
Module api.

Inductive Call :=
| LoginByEmail (team login pass : string)
| GetMyTeam (etag : string)
| GetProfiles (teamId etag : string)
| GetChannels (etag : string)
| GetMoreChannels (etag : string)
| CreatePost (post : model.Post)
| JoinChannel (id : string)
| GetPostsSince (channelId : string) (time : Z)
| SearchPosts (query : string)
| GetPosts (channelId : string) (offset limit : Z) (etag : string)
| UpdateChannelHeader (data : gmap string string)
| UpdateLastViewedAt (channelId : string).

End api.

(** The lines the client hands to [log]. *)
Inductive LogLine :=
| LogRetryingLogin (team login server : string)
| LogLogin (e : model.AppError) (d : Z)
| LogWss (e : string) (d : Z)
| LogReadError (e : string)
| LogUpdatingHeader (channelId header : string)
| LogPostingLastview (channelId : string)
| LogAppError (e : model.AppError).

Inductive Event :=
| ECall (cl : ClientHandle) (c : api.Call)
| EDial (wsurl bearer : string)
| ERead (ws : Conn)
| ELog (l : LogLine)
| ESleep (d : Z)
| EEmit (msg : Message).

(** [backoff.Backoff]: the configuration and the attempt counter. *)
Record Backoff := mkBackoff {
  Min : Z;
  Max : Z;
  Jitter : bool;
  attempt : nat;
}.

Definition Second : Z := 1000000000.
Definition Minute : Z := 60 * Second.

(** The external packages. Every answer may depend on the whole history
    of what the client did so far, so no behaviour of the backend is
    excluded. A REST call answers with the Go pair of a [Result] pointer and an
    [AppError] pointer, either of which may be nil. [ReadJSON] decodes into the caller's
    variable: it gets the old contents and yields the new ones.
    [ForAttempt] is the (jittered) delay of [backoff] at an attempt. *)
Record Extern := mkExtern {
  rest : list Event -> ClientHandle -> api.Call ->
         option model.Result * option model.AppError;
  Dial : list Event -> string -> string -> option Conn * option string;
  ReadJSON : list Event -> Conn -> model.RawMessage ->
             model.RawMessage * option string;
  AuthToken : list Event -> ClientHandle -> string;
  ForAttempt : list Event -> Backoff -> Z;
  PostFromJson : string -> option model.Post;
}.

(** ** The monad of the embedding *)

Record World := mkWorld {
  mm : MMClient;
  trace : list Event;
}.

Inductive Res (A : Type) : Type :=
| Ret (a : A) (w : World)
| Panic (w : World)
| Running (w : World).
Arguments Ret {A} a w.
Arguments Panic {A} w.
Arguments Running {A} w.

Definition M (A : Type) : Type := World -> Res A.

Definition ret {A} (a : A) : M A := fun w => Ret a w.

Definition bind {A B} (c : M A) (k : A -> M B) : M B :=
  fun w => match c w with
           | Ret a w' => k a w'
           | Panic w' => Panic w'
           | Running w' => Running w'
           end.

Notation "'let*' x ':=' c1 'in' c2" := (bind c1 (fun x => c2))
  (at level 10, x name, c1 at level 100, c2 at level 200).
Notation "'let*' ' p ':=' c1 'in' c2" :=
  (bind c1 (fun x => match x with p => c2 end))
  (at level 10, p pattern, c1 at level 100, c2 at level 200).
Notation "c1 ';;' c2" := (bind c1 (fun _ => c2))
  (at level 100, c2 at level 200, right associativity, only parsing).

Definition panic {A} : M A := fun w => Panic w.
Definition running {A} : M A := fun w => Running w.

(** Reading the receiver [m] and assigning to it. *)
Definition get : M MMClient := fun w => Ret (mm w) w.
Definition put (m : MMClient) : M unit :=
  fun w => Ret tt {| mm := m; trace := trace w |}.

(** The history so far, and one more event. *)
Definition history : M (list Event) := fun w => Ret (trace w) w.
Definition emit (e : Event) : M unit :=
  fun w => Ret tt {| mm := mm w; trace := (trace w ++ [e])%list |}.

(** Dereferencing a pointer: nil panics. *)
Definition deref {A} (p : option A) : M A :=
  match p with
  | Some a => ret a
  | None => panic
  end.

(** Assignments to the fields of the receiver. *)
Definition set_Client (c : option ClientHandle) (m : MMClient) : MMClient :=
  {| Creds := Creds m; Client := c; WsClient := WsClient m;
     Channels := Channels m; MoreChannels := MoreChannels m;
     User := User m; Users := Users m; Team := Team m |}.
Definition set_WsClient (c : option Conn) (m : MMClient) : MMClient :=
  {| Creds := Creds m; Client := Client m; WsClient := c;
     Channels := Channels m; MoreChannels := MoreChannels m;
     User := User m; Users := Users m; Team := Team m |}.
Definition set_Channels (c : option model.ChannelList) (m : MMClient) : MMClient :=
  {| Creds := Creds m; Client := Client m; WsClient := WsClient m;
     Channels := c; MoreChannels := MoreChannels m;
     User := User m; Users := Users m; Team := Team m |}.
Definition set_MoreChannels (c : option model.ChannelList) (m : MMClient) : MMClient :=
  {| Creds := Creds m; Client := Client m; WsClient := WsClient m;
     Channels := Channels m; MoreChannels := c;
     User := User m; Users := Users m; Team := Team m |}.
Definition set_User (u : option model.User) (m : MMClient) : MMClient :=
  {| Creds := Creds m; Client := Client m; WsClient := WsClient m;
     Channels := Channels m; MoreChannels := MoreChannels m;
     User := u; Users := Users m; Team := Team m |}.
Definition set_Users (us : gmap string model.User) (m : MMClient) : MMClient :=
  {| Creds := Creds m; Client := Client m; WsClient := WsClient m;
     Channels := Channels m; MoreChannels := MoreChannels m;
     User := User m; Users := us; Team := Team m |}.
Definition set_Team (t : option model.Team) (m : MMClient) : MMClient :=
  {| Creds := Creds m; Client := Client m; WsClient := WsClient m;
     Channels := Channels m; MoreChannels := MoreChannels m;
     User := User m; Users := Users m; Team := t |}.

Definition modify (f : MMClient -> MMClient) : M unit :=
  let* m := get in put (f m).

(** The type assertions on [Result.Data]. *)
Definition as_User (d : model.Data) : M (option model.User) :=
  match d with model.DUser u => ret u | _ => panic end.
Definition as_Team (d : model.Data) : M (option model.Team) :=
  match d with model.DTeam t => ret t | _ => panic end.
Definition as_Profiles (d : model.Data) : M (gmap string model.User) :=
  match d with model.DProfiles us => ret us | _ => panic end.
Definition as_ChannelList (d : model.Data) : M (option model.ChannelList) :=
  match d with model.DChannelList cl => ret cl | _ => panic end.
Definition as_PostList (d : model.Data) : M (option model.PostList) :=
  match d with model.DPostList pl => ret pl | _ => panic end.

(** [b.Reset()]. *)
Definition Reset (b : Backoff) : Backoff :=
  {| Min := Min b; Max := Max b; Jitter := Jitter b; attempt := 0 |}.

(** ** The methods of [MMClient] *)

Section Methods.

Context (E : Extern).

(** A request through [m.Client]; a nil client panics before anything
    reaches the backend. *)
Definition call (c : api.Call) : M (option model.Result * option model.AppError) :=
  let* m := get in
  let* cl := deref (Client m) in
  let* h := history in
  emit (ECall cl c);;
  ret (rest E h cl c).

Definition log (l : LogLine) : M unit := emit (ELog l).
Definition Sleep (d : Z) : M unit := emit (ESleep d).

(** [b.Duration()]: the delay of the current attempt, and the counter
    moved on. *)
Definition Duration (b : Backoff) : M (Z * Backoff) :=
  let* h := history in
  ret (ForAttempt E h b,
       {| Min := Min b; Max := Max b; Jitter := Jitter b;
          attempt := S (attempt b) |}).

(** [UpdateUsers], lines 170-174. *)
Definition UpdateUsers : M (option error) :=
  let* m := get in
  let* u := deref (User m) in
  let* '(mmusers, _) := call (api.GetProfiles (model.User_TeamId u) "") in
  let* r := deref mmusers in
  let* us := as_Profiles (model.Result_Data r) in
  modify (set_Users us);;
  ret None.

(** [UpdateChannels], lines 176-182. *)
Definition UpdateChannels : M (option error) :=
  let* '(mmchannels, _) := call (api.GetChannels "") in
  let* r := deref mmchannels in
  let* cl := as_ChannelList (model.Result_Data r) in
  modify (set_Channels cl);;
  let* '(mmchannels, _) := call (api.GetMoreChannels "") in
  let* r := deref mmchannels in
  let* cl := as_ChannelList (model.Result_Data r) in
  modify (set_MoreChannels cl);;
  ret None.

(** [append(m.Channels.Channels, m.MoreChannels.Channels...)]. *)
Definition both_caches : M (list model.Channel) :=
  let* m := get in
  let* cs := deref (Channels m) in
  let* ms := deref (MoreChannels m) in
  ret (model.ChannelList_Channels cs ++ model.ChannelList_Channels ms)%list.

(** The [for ... range] scans: the first channel that passes the test. *)
Definition by_id (id : string) (c : model.Channel) : bool :=
  String.eqb (model.Channel_Id c) id.
Definition by_name (name : string) (c : model.Channel) : bool :=
  String.eqb (model.Channel_Name c) name.

(** [GetChannelName], lines 184-198. *)
Definition GetChannelName (id : string) : M string :=
  let* l := both_caches in
  match List.find (by_id id) l with
  | Some channel => ret (model.Channel_Name channel)
  | None =>
      UpdateChannels;;
      let* l := both_caches in
      match List.find (by_id id) l with
      | Some channel => ret (model.Channel_Name channel)
      | None => ret ""
      end
  end.

(** [GetChannelId], lines 200-207. *)
Definition GetChannelId (name : string) : M string :=
  let* l := both_caches in
  match List.find (by_name name) l with
  | Some channel => ret (model.Channel_Id channel)
  | None => ret ""
  end.

(** [GetChannelHeader], lines 209-216. *)
Definition GetChannelHeader (id : string) : M string :=
  let* l := both_caches in
  match List.find (by_id id) l with
  | Some channel => ret (model.Channel_Header channel)
  | None => ret ""
  end.

(** [PostMessage], lines 218-221. *)
Definition PostMessage (channel text : string) : M unit :=
  let* id := GetChannelId channel in
  let post := {| model.Post_UserId := ""; model.Post_ChannelId := id;
                 model.Post_Message := text |} in
  call (api.CreatePost post);;
  ret tt.

(** [JoinChannel], lines 223-233. *)
Definition JoinChannel (channel : string) : M (option error) :=
  let* id := GetChannelId (strings.Replace channel "#" "" 1) in
  if String.eqb id "" then ret (Some (errors_New "failed to join"))
  else
    let* id := GetChannelId (strings.Replace channel "#" "" 1) in
    let* '(_, err) := call (api.JoinChannel id) in
    match err with
    | Some _ => ret (Some (errors_New "failed to join"))
    | None => ret None
    end.

(** [GetPostsSince], lines 235-241. *)
Definition GetPostsSince (channelId : string) (time : Z) : M (option model.PostList) :=
  let* '(res, err) := call (api.GetPostsSince channelId time) in
  match err with
  | Some _ => ret None
  | None =>
      let* r := deref res in
      as_PostList (model.Result_Data r)
  end.

(** [SearchPosts], lines 243-249. *)
Definition SearchPosts (query : string) : M (option model.PostList) :=
  let* '(res, err) := call (api.SearchPosts query) in
  match err with
  | Some _ => ret None
  | None =>
      let* r := deref res in
      as_PostList (model.Result_Data r)
  end.

(** [GetPosts], lines 251-257. *)
Definition GetPosts (channelId : string) (limit : Z) : M (option model.PostList) :=
  let* '(res, err) := call (api.GetPosts channelId 0 limit "") in
  match err with
  | Some _ => ret None
  | None =>
      let* r := deref res in
      as_PostList (model.Result_Data r)
  end.

(** [UpdateChannelHeader], lines 259-268. *)
Definition UpdateChannelHeader (channelId header : string) : M unit :=
  let data : gmap string string :=
    <["channel_header" := header]> (<["channel_id" := channelId]> ∅) in
  log (LogUpdatingHeader channelId header);;
  let* '(_, err) := call (api.UpdateChannelHeader data) in
  match err with
  | Some e => log (LogAppError e)
  | None => ret tt
  end.

(** [UpdateLastViewed], lines 270-276. *)
Definition UpdateLastViewed (channelId : string) : M unit :=
  log (LogPostingLastview channelId);;
  let* '(_, err) := call (api.UpdateLastViewedAt channelId) in
  match err with
  | Some e => log (LogAppError e)
  | None => ret tt
  end.

(** [m.Users[id]]: nil when the map has no entry. *)
Definition user_at (id : string) : M (option model.User) :=
  let* m := get in ret (Users m !! id).

(** Assignments to the fields of the message under construction. *)
Definition set_Username (s : string) (r : Message) : Message :=
  {| Msg_Raw := Msg_Raw r; Msg_Post := Msg_Post r; Msg_Team := Msg_Team r;
     Msg_Channel := Msg_Channel r; Msg_Username := s; Msg_Text := Msg_Text r |}.
Definition set_Channel (s : string) (r : Message) : Message :=
  {| Msg_Raw := Msg_Raw r; Msg_Post := Msg_Post r; Msg_Team := Msg_Team r;
     Msg_Channel := s; Msg_Username := Msg_Username r; Msg_Text := Msg_Text r |}.
Definition set_Text (s : string) (r : Message) : Message :=
  {| Msg_Raw := Msg_Raw r; Msg_Post := Msg_Post r; Msg_Team := Msg_Team r;
     Msg_Channel := Msg_Channel r; Msg_Username := Msg_Username r; Msg_Text := s |}.
Definition set_Post (p : option model.Post) (r : Message) : Message :=
  {| Msg_Raw := Msg_Raw r; Msg_Post := p; Msg_Team := Msg_Team r;
     Msg_Channel := Msg_Channel r; Msg_Username := Msg_Username r;
     Msg_Text := Msg_Text r |}.

(** The rewrite of a direct-message channel name, lines 156-164. An
    index past the end of [rcvusers] panics, as does a nil user. *)
Definition direct_message (channel : string) : M string :=
  if strings.Contains channel "__" then
    let rcvusers := strings.Split channel "__" in
    let* r0 := deref (rcvusers !! 0%nat) in
    let* m := get in
    let* me := deref (User m) in
    if negb (String.eqb r0 (model.User_Id me)) then
      let* u := user_at r0 in
      let* u := deref u in
      ret (model.User_Username u)
    else
      let* r1 := deref (rcvusers !! 1%nat) in
      let* u := user_at r1 in
      let* u := deref u in
      ret (model.User_Username u)
  else ret channel.

(** The acting user, lines 150-153: a refresh when the map has no
    profile for [id], then the entry the map has (nil panics at
    [.Username]). *)
Definition acting_user (id : string) : M model.User :=
  let* u := user_at id in
  (match u with
   | None => UpdateUsers;; ret tt
   | Some _ => ret tt
   end);;
  let* u := user_at id in
  deref u.

(** [rmsg.Raw.Props["post"]]: a missing key reads as the empty string. *)
Definition payload (rmsg : Message) : string :=
  default "" (model.Raw_Props (Msg_Raw rmsg) !! "post").

(** [parseActionPost], lines 146-168. *)
Definition parseActionPost (rmsg : Message) : M Message :=
  let data := PostFromJson E (payload rmsg) in
  let* d := deref data in
  let* u := acting_user (model.Post_UserId d) in
  let rmsg := set_Username (model.User_Username u) rmsg in
  let* channel := GetChannelName (model.Post_ChannelId d) in
  let* channel := direct_message channel in
  let rmsg := set_Channel channel rmsg in
  let rmsg := set_Text (model.Post_Message d) rmsg in
  let rmsg := set_Post data rmsg in
  ret rmsg.

(** [parseMessage], lines 133-144. *)
Definition parseMessage (rmsg : Message) : M Message :=
  if String.eqb (model.Raw_Action (Msg_Raw rmsg)) model.ACTION_POSTED
  then parseActionPost rmsg
  else ret rmsg.

(** The classification at lines 71-72: an error is retried when its
    detail mentions a refused connection or an undecodable body. *)
Definition transient (e : model.AppError) : bool :=
  strings.Contains (model.AppError_DetailedError e) "connection refused"
  || strings.Contains (model.AppError_DetailedError e) "invalid character".

(** The login loop, lines 66-80. One unit of [fuel] is one attempt; the
    loop that has used them all up is still [running]. It leaves with
    the error to return, or with [myinfo] and the backoff. *)
Fixpoint login_loop (fuel : nat) (b : Backoff)
  : M (error + option model.Result * Backoff) :=
  match fuel with
  | O => running
  | S fuel' =>
      let* m := get in
      log (LogRetryingLogin (cred_Team (Creds m)) (cred_Login (Creds m))
             (cred_Server (Creds m)));;
      let* '(myinfo, appErr) :=
        call (api.LoginByEmail (cred_Team (Creds m)) (cred_Login (Creds m))
                (cred_Pass (Creds m))) in
      match appErr with
      | Some e =>
          let* '(d, b') := Duration b in
          if negb (strings.Contains (model.AppError_DetailedError e) "connection refused")
             && negb (strings.Contains (model.AppError_DetailedError e) "invalid character")
          then ret (inl (errors_New (model.AppError_Message e)))
          else
            log (LogLogin e d);;
            Sleep d;;
            login_loop fuel' b'
      | None => ret (inr (myinfo, b))
      end
  end.

(** The dial loop, lines 94-103. *)
Fixpoint dial_loop (fuel : nat) (wsurl bearer : string) (b : Backoff)
  : M (option Conn * Backoff) :=
  match fuel with
  | O => running
  | S fuel' =>
      let* h := history in
      emit (EDial wsurl bearer);;
      let '(WsClient, err) := Dial E h wsurl bearer in
      match err with
      | Some e =>
          let* '(d, b') := Duration b in
          log (LogWss e d);;
          Sleep d;;
          dial_loop fuel' wsurl bearer b'
      | None => ret (WsClient, b)
      end
  end.

(** [Login], lines 50-115. Each of its two loops may take [fuel]
    attempts. *)
Definition Login (fuel : nat) : M (option error) :=
  let b := {| Min := Second; Max := 5 * Minute; Jitter := true; attempt := 0 |} in
  let* m := get in
  let uriScheme := if cred_NoTLS (Creds m) then "http://" else "https://" in
  let wsScheme := if cred_NoTLS (Creds m) then "ws://" else "wss://" in
  modify (set_Client (Some {| Client_Url := uriScheme +:+ cred_Server (Creds m) |}));;
  let* r := login_loop fuel b in
  match r with
  | inl err => ret (Some err)
  | inr (myinfo, b) =>
      let b := Reset b in
      let* r := deref myinfo in
      let* u := as_User (model.Result_Data r) in
      modify (set_User u);;
      let* '(myinfo, _) := call (api.GetMyTeam "") in
      let* r := deref myinfo in
      let* t := as_Team (model.Result_Data r) in
      modify (set_Team t);;
      let wsurl := wsScheme +:+ cred_Server (Creds m) +:+ "/api/v1/websocket" in
      let* m' := get in
      let* cl := deref (Client m') in
      let* h := history in
      let bearer := "BEARER " +:+ AuthToken E h cl in
      let* '(ws, b) := dial_loop fuel wsurl bearer b in
      let b := Reset b in
      modify (set_WsClient ws);;
      UpdateUsers;;
      UpdateChannels;;
      ret None
  end.

(** One turn of the loop of [WsReceiver], lines 120-128. [rmsg] is the
    variable declared outside the loop: [ReadJSON] decodes into it, and
    what it holds after the read is what the turn goes on with. *)
Definition WsReceiver_turn (fuel : nat) (rmsg : model.RawMessage)
  : M model.RawMessage :=
  let* m := get in
  let* ws := deref (WsClient m) in
  let* h := history in
  emit (ERead ws);;
  let '(rmsg, err) := ReadJSON E h ws rmsg in
  (match err with
   | Some e =>
       log (LogReadError e);;
       Login fuel;;
       ret tt
   | None => ret tt
   end);;
  let* m := get in
  let msg := {| Msg_Raw := rmsg; Msg_Post := None;
                Msg_Team := cred_Team (Creds m); Msg_Channel := "";
                Msg_Username := ""; Msg_Text := "" |} in
  let* msg := parseMessage msg in
  emit (EEmit msg);;
  ret rmsg.

(** [WsReceiver], lines 117-131: the loop never leaves by itself, so
    after any number of [turns] it is still [running]. *)
Fixpoint WsReceiver_loop (turns fuel : nat) (rmsg : model.RawMessage) : M unit :=
  match turns with
  | O => running
  | S turns' =>
      let* rmsg := WsReceiver_turn fuel rmsg in
      WsReceiver_loop turns' fuel rmsg
  end.

Definition WsReceiver (turns fuel : nat) : M unit :=
  WsReceiver_loop turns fuel
    {| model.Raw_Action := ""; model.Raw_Props := ∅ |}.

End Methods.

(** ** Worlds reached from a world *)

(** [w] after the client did [evs] on top of it, and [w] with another
    client state. *)
Definition did (w : World) (evs : list Event) : World :=
  {| mm := mm w; trace := (trace w ++ evs)%list |}.
Definition having (w : World) (m : MMClient) : World :=
  {| mm := m; trace := trace w |}.

(** The first match of the two scans, as the lookups return it. *)
Definition name_of (id : string) (l : list model.Channel) : string :=
  match List.find (by_id id) l with
  | Some channel => model.Channel_Name channel
  | None => ""
  end.
Definition id_of (name : string) (l : list model.Channel) : string :=
  match List.find (by_name name) l with
  | Some channel => model.Channel_Id channel
  | None => ""
  end.
Definition header_of (id : string) (l : list model.Channel) : string :=
  match List.find (by_id id) l with
  | Some channel => model.Channel_Header channel
  | None => ""
  end.

(** The requests of one channel refresh. *)
Definition refresh_calls (cl : ClientHandle) : list Event :=
  [ECall cl (api.GetChannels ""); ECall cl (api.GetMoreChannels "")].

(** ** Two operations as the specification words them

    Kept apart from the methods above, to compare the two. *)

(** "[header_for_id] attempts a single refresh-and-retry when the
    identifier is missing." *)
Definition header_for_id_spec (E : Extern) (id : string) : M string :=
  let* l := both_caches in
  match List.find (by_id id) l with
  | Some channel => ret (model.Channel_Header channel)
  | None =>
      UpdateChannels E;;
      let* l := both_caches in
      ret (header_of id l)
  end.

(** "Strips a leading channel-marker character if present." *)
Definition strip_leading_marker (name : string) : string :=
  match name with
  | String "#"%char rest => rest
  | _ => name
  end.

(** "[join_channel(name)]: strips a leading channel-marker character if
    present, resolves to identifier, fails with a generic error if the
    identifier cannot be resolved or the backend join call errors." *)
Definition join_channel_spec (E : Extern) (name : string) : M (option error) :=
  let* id := GetChannelId (strip_leading_marker name) in
  if String.eqb id "" then ret (Some (errors_New "failed to join"))
  else
    let* '(_, err) := call E (api.JoinChannel id) in
    match err with
    | Some _ => ret (Some (errors_New "failed to join"))
    | None => ret None
    end.

(** ** Counting on traces *)


Definition is_sleep (e : Event) : bool :=
  match e with ESleep _ => true | _ => false end.

Definition is_emit (e : Event) : bool :=
  match e with EEmit _ => true | _ => false end.

Definition sleeps (t : list Event) : nat :=
  List.length (List.filter is_sleep t).
Definition emitted (t : list Event) : list Event :=
  List.filter is_emit t.

(** ** Names for the parts of [Login] *)

(** The request and the log line of one login attempt. *)
Definition login_call (m : MMClient) : api.Call :=
  api.LoginByEmail (cred_Team (Creds m)) (cred_Login (Creds m)) (cred_Pass (Creds m)).
Definition login_line (m : MMClient) : LogLine :=
  LogRetryingLogin (cred_Team (Creds m)) (cred_Login (Creds m)) (cred_Server (Creds m)).

(** The handle [Login] creates, [model.NewClient(uriScheme + Server)]. *)
Definition NewClient (m : MMClient) : ClientHandle :=
  {| Client_Url := (if cred_NoTLS (Creds m) then "http://" else "https://")
                   +:+ cred_Server (Creds m) |}.

(** The backoff after one more [Duration]. *)
Definition tick (b : Backoff) : Backoff :=
  {| Min := Min b; Max := Max b; Jitter := Jitter b; attempt := S (attempt b) |}.

(** ** Test doubles of the external packages

    Small backends to run the methods on. They share a toy decoder for
    post payloads (["user channel text"], blank-separated) and a
    [backoff] whose delay is one second per attempt made. *)

Module double.

Definition alice : model.User :=
  {| model.User_Id := "u1"; model.User_Username := "alice"; model.User_TeamId := "t1" |}.
Definition bob : model.User :=
  {| model.User_Id := "u2"; model.User_Username := "bob"; model.User_TeamId := "t1" |}.
Definition team : model.Team :=
  {| model.Team_Id := "t1"; model.Team_Name := "crew" |}.
Definition town : model.Channel :=
  {| model.Channel_Id := "c1"; model.Channel_Name := "town";
     model.Channel_Header := "welcome" |}.
Definition dm : model.Channel :=
  {| model.Channel_Id := "c2"; model.Channel_Name := "u1__u2";
     model.Channel_Header := "" |}.
Definition ab : model.Channel :=
  {| model.Channel_Id := "c3"; model.Channel_Name := "ab";
     model.Channel_Header := "" |}.

Definition profiles : gmap string model.User :=
  <["u1" := alice]> (<["u2" := bob]> ∅).

Definition decode (s : string) : option model.Post :=
  match strings.Split s " " with
  | [u; c; t] => Some {| model.Post_UserId := u; model.Post_ChannelId := c;
                         model.Post_Message := t |}
  | _ => None
  end.

Definition ok (d : model.Data) : option model.Result * option model.AppError :=
  (Some {| model.Result_Data := d |}, None).

Definition failed (msg detail : string) : option model.Result * option model.AppError :=
  (None, Some {| model.AppError_Message := msg;
                 model.AppError_DetailedError := detail |}).

(** A backend in good health. *)
Definition serve (c : api.Call) : option model.Result * option model.AppError :=
  match c with
  | api.LoginByEmail _ _ _ => ok (model.DUser (Some alice))
  | api.GetMyTeam _ => ok (model.DTeam (Some team))
  | api.GetProfiles _ _ => ok (model.DProfiles profiles)
  | api.GetChannels _ =>
      ok (model.DChannelList (Some {| model.ChannelList_Channels := [town; ab] |}))
  | api.GetMoreChannels _ =>
      ok (model.DChannelList (Some {| model.ChannelList_Channels := [dm] |}))
  | api.GetPostsSince _ _ | api.SearchPosts _ | api.GetPosts _ _ _ _ =>
      ok (model.DPostList (Some {| model.PostList_Order := []; model.PostList_Posts := ∅ |}))
  | _ => ok model.DNil
  end.

(** A backend that is down: every request is refused. *)
Definition refuse (c : api.Call) : option model.Result * option model.AppError :=
  failed "We encountered an error while connecting to the server"
         "dial tcp 127.0.0.1:8065: connection refused".

(** A backend that turns the credentials down and errs on the rest. *)
Definition reject (c : api.Call) : option model.Result * option model.AppError :=
  failed "Login failed because of invalid password" "".

Definition is_read (e : Event) : bool :=
  match e with ERead _ => true | _ => false end.

(** A stream that delivers one post by bob in the direct-message
    channel and then breaks: later reads fail and leave the variable as
    it was. *)
Definition one_frame (h : list Event) (ws : Conn) (old : model.RawMessage)
  : model.RawMessage * option string :=
  if existsb is_read h then (old, Some "unexpected EOF")
  else ({| model.Raw_Action := model.ACTION_POSTED;
           model.Raw_Props := <["post" := "u2 c2 hello"]> ∅ |}, None).

Definition extern (answer : api.Call -> option model.Result * option model.AppError)
  : Extern :=
  {| rest := fun _ _ c => answer c;
     Dial := fun _ _ _ => (Some 7%nat, None);
     ReadJSON := one_frame;
     AuthToken := fun _ _ => "token";
     ForAttempt := fun _ b => (Z.of_nat (S (attempt b)) * Second)%Z;
     PostFromJson := decode |}.

Definition healthy : Extern := extern serve.
Definition down : Extern := extern refuse.
Definition rejecting : Extern := extern reject.

Definition creds : Credentials :=
  {| cred_Login := "alice@example.org"; cred_Team := "crew"; cred_Pass := "secret";
     cred_Server := "chat.example.org"; cred_NoTLS := false |}.

Definition handle : ClientHandle := {| Client_Url := "https://chat.example.org" |}.

(** A session after a successful [Login] whose caches are still empty,
    and one with everything loaded. *)
Definition fresh : MMClient :=
  {| Creds := creds; Client := Some handle; WsClient := Some 7%nat;
     Channels := Some {| model.ChannelList_Channels := [] |};
     MoreChannels := Some {| model.ChannelList_Channels := [] |};
     User := Some alice; Users := ∅; Team := Some team |}.

Definition loaded : MMClient :=
  {| Creds := creds; Client := Some handle; WsClient := Some 7%nat;
     Channels := Some {| model.ChannelList_Channels := [town; ab] |};
     MoreChannels := Some {| model.ChannelList_Channels := [dm] |};
     User := Some alice; Users := profiles; Team := Some team |}.

Definition start (m : MMClient) : World := {| mm := m; trace := [] |}.

(** The envelope of a frame in which bob posts to the direct-message
    channel, before it is parsed. *)
Definition bobs_frame : Message :=
  {| Msg_Raw := {| model.Raw_Action := model.ACTION_POSTED;
                   model.Raw_Props := <["post" := "u2 c2 hello"]> ∅ |};
     Msg_Post := None; Msg_Team := "crew"; Msg_Channel := "";
     Msg_Username := ""; Msg_Text := "" |}.

(** The same envelope once parsed by alice's session. *)
Definition bobs_message : Message :=
  {| Msg_Raw := Msg_Raw bobs_frame;
     Msg_Post := Some {| model.Post_UserId := "u2"; model.Post_ChannelId := "c2";
                         model.Post_Message := "hello" |};
     Msg_Team := "crew"; Msg_Channel := "bob";
     Msg_Username := "bob"; Msg_Text := "hello" |}.

(** What a [Login] that succeeds at once does to the outside. *)
Definition relogin : list Event :=
  [ELog (LogRetryingLogin "crew" "alice@example.org" "chat.example.org");
   ECall handle (api.LoginByEmail "crew" "alice@example.org" "secret");
   ECall handle (api.GetMyTeam "");
   EDial "wss://chat.example.org/api/v1/websocket" "BEARER token";
   ECall handle (api.GetProfiles "t1" "");
   ECall handle (api.GetChannels "");
   ECall handle (api.GetMoreChannels "")].

End double.

(** ** The world an outcome leaves *)

(** Whatever the outcome, the world the call ended in. *)
Definition after {A} (r : Res A) : World :=
  match r with
  | Ret _ w => w
  | Panic w => w
  | Running w => w
  end.

(** The requests in a trace. *)
Definition is_call (e : Event) : bool :=
  match e with ECall _ _ => true | _ => false end.
Definition calls (t : list Event) : list Event := List.filter is_call t.

(** ** Two more test doubles *)

(** A backend that refuses the first two logins and a dialer that
    fails until the client has slept three times; the rest is in good
    health. *)
Module flaky.

Definition answer (h : list Event) (cl : ClientHandle) (c : api.Call)
  : option model.Result * option model.AppError :=
  match c with
  | api.LoginByEmail _ _ _ =>
      if (sleeps h <? 2)%nat then double.refuse c else double.serve c
  | _ => double.serve c
  end.

Definition dial (h : list Event) (wsurl bearer : string)
  : option Conn * option string :=
  if (sleeps h <? 3)%nat then (None, Some "dial tcp: i/o timeout")
  else (Some 7%nat, None).

Definition extern : Extern :=
  {| rest := answer;
     Dial := dial;
     ReadJSON := double.one_frame;
     AuthToken := fun _ _ => "token";
     ForAttempt := fun _ b => (Z.of_nat (S (attempt b)) * Second)%Z;
     PostFromJson := double.decode |}.

End flaky.

(** A backend whose list of joinable channels fails, all else being in
    good health. *)
Module halfway.

Definition answer (c : api.Call) : option model.Result * option model.AppError :=
  match c with
  | api.GetMoreChannels _ => double.refuse c
  | _ => double.serve c
  end.

Definition extern : Extern := double.extern answer.

End halfway.

(** ** More readings of a trace *)

(** The delays the client slept, in order. *)
Definition slept (t : list Event) : list Z :=
  List.flat_map (fun e => match e with ESleep d => [d] | _ => [] end) t.

(** A computation that sends nothing on [MessageChan], however it
    ends. *)
Definition quiet {A} (c : M A) : Prop :=
  forall w, emitted (trace (after (c w))) = emitted (trace w).

(** ** Streams to read from *)

Module streams.

(** A stream of typing notices. *)
Definition typing : Extern :=
  {| rest := rest double.healthy;
     Dial := Dial double.healthy;
     ReadJSON := fun _ _ _ =>
       ({| model.Raw_Action := "typing"; model.Raw_Props := ∅ |}, None);
     AuthToken := AuthToken double.healthy;
     ForAttempt := ForAttempt double.healthy;
     PostFromJson := PostFromJson double.healthy |}.

(** A stream of post frames whose payload is not a post. *)
Definition garbled : Extern :=
  {| rest := rest double.healthy;
     Dial := Dial double.healthy;
     ReadJSON := fun _ _ _ =>
       ({| model.Raw_Action := model.ACTION_POSTED;
           model.Raw_Props := <["post" := "garbage"]> ∅ |}, None);
     AuthToken := AuthToken double.healthy;
     ForAttempt := ForAttempt double.healthy;
     PostFromJson := PostFromJson double.healthy |}.

(** The envelope of a post frame with the given payload. *)
Definition envelope (post : string) : Message :=
  {| Msg_Raw := {| model.Raw_Action := model.ACTION_POSTED;
                   model.Raw_Props := <["post" := post]> ∅ |};
     Msg_Post := None; Msg_Team := "crew"; Msg_Channel := "";
     Msg_Username := ""; Msg_Text := "" |}.

End streams.

(** * Properties *)

(** ** The monad *)

Lemma bind_Ret {A B} (c : M A) (k : A -> M B) w a w1 :
  c w = Ret a w1 -> bind c k w = k a w1.
Proof. intros H. unfold bind. now rewrite H. Qed.

Lemma bind_Panic {A B} (c : M A) (k : A -> M B) w w1 :
  c w = Panic w1 -> bind c k w = Panic w1.
Proof. intros H. unfold bind. now rewrite H. Qed.


Lemma bind_Ret_inv {A B} (c : M A) (k : A -> M B) w b w' :
  bind c k w = Ret b w' -> exists a w1, c w = Ret a w1 /\ k a w1 = Ret b w'.
Proof.
  unfold bind. destruct (c w) as [a w1| |]; intros H; try discriminate.
  now exists a, w1.
Qed.

Lemma did_nil w : did w [] = w.
Proof. destruct w. unfold did. simpl. now rewrite app_nil_r. Qed.

Lemma did_did w xs ys : did (did w xs) ys = did w (xs ++ ys).
Proof. unfold did. simpl. now rewrite app_assoc. Qed.

(** ** Requests and cache scans *)

Section Lookups.

Context (E : Extern).

Lemma call_eq c w cl :
  Client (mm w) = Some cl ->
  call E c w = Ret (rest E (trace w) cl c) (did w [ECall cl c]).
Proof.
  intros H. unfold call, bind, get, deref, history, emit, ret. now rewrite H.
Qed.

Lemma call_nil_client c w :
  Client (mm w) = None -> call E c w = Panic w.
Proof.
  intros H. unfold call, bind, get, deref, panic. now rewrite H.
Qed.

Lemma both_caches_eq w cs ms :
  Channels (mm w) = Some cs -> MoreChannels (mm w) = Some ms ->
  both_caches w =
  Ret (model.ChannelList_Channels cs ++ model.ChannelList_Channels ms)%list w.
Proof.
  intros H1 H2. unfold both_caches, bind, get, deref, ret. now rewrite H1, H2.
Qed.

Lemma GetChannelId_eq name w cs ms :
  Channels (mm w) = Some cs -> MoreChannels (mm w) = Some ms ->
  GetChannelId name w =
  Ret (id_of name (model.ChannelList_Channels cs ++ model.ChannelList_Channels ms)) w.
Proof.
  intros H1 H2. unfold GetChannelId, id_of.
  rewrite (bind_Ret _ _ _ _ _ (both_caches_eq w cs ms H1 H2)).
  now destruct (List.find _ _).
Qed.

Lemma GetChannelHeader_eq id w cs ms :
  Channels (mm w) = Some cs -> MoreChannels (mm w) = Some ms ->
  GetChannelHeader id w =
  Ret (header_of id (model.ChannelList_Channels cs ++ model.ChannelList_Channels ms)) w.
Proof.
  intros H1 H2. unfold GetChannelHeader, header_of.
  rewrite (bind_Ret _ _ _ _ _ (both_caches_eq w cs ms H1 H2)).
  now destruct (List.find _ _).
Qed.

(** A refresh whose two fetches come back with channel lists replaces
    both caches, whatever errors come with the lists. *)
Lemma UpdateChannels_eq w cl r1 e1 c1 r2 e2 c2 :
  Client (mm w) = Some cl ->
  rest E (trace w) cl (api.GetChannels "") = (Some r1, e1) ->
  model.Result_Data r1 = model.DChannelList c1 ->
  rest E (trace w ++ [ECall cl (api.GetChannels "")]) cl (api.GetMoreChannels "")
    = (Some r2, e2) ->
  model.Result_Data r2 = model.DChannelList c2 ->
  UpdateChannels E w =
  Ret None (having (did w (refresh_calls cl))
              (set_MoreChannels c2 (set_Channels c1 (mm w)))).
Proof.
  intros Hc H1 D1 H2 D2. unfold UpdateChannels.
  rewrite (bind_Ret _ _ _ _ _ (call_eq _ w cl Hc)), H1. cbn [deref].
  unfold bind at 1. cbn [ret]. rewrite D1. cbn [as_ChannelList].
  unfold bind at 1. cbn [ret].
  unfold bind at 1. unfold modify, bind at 1, get, put. cbn [mm trace did].
  erewrite bind_Ret; [| apply call_eq; exact Hc].
  cbn [mm trace did]. rewrite H2. cbn [deref].
  unfold bind at 1. cbn [ret]. rewrite D2. cbn [as_ChannelList].
  unfold bind, ret, get, put, having, did, refresh_calls. cbn.
  now rewrite <- app_assoc.
Qed.

(** [GetChannelName] on caches that hold the identifier: no request. *)
Lemma GetChannelName_hit id w cs ms channel :
  Channels (mm w) = Some cs -> MoreChannels (mm w) = Some ms ->
  List.find (by_id id)
    (model.ChannelList_Channels cs ++ model.ChannelList_Channels ms) = Some channel ->
  GetChannelName E id w = Ret (model.Channel_Name channel) w.
Proof.
  intros H1 H2 Hf. unfold GetChannelName.
  rewrite (bind_Ret _ _ _ _ _ (both_caches_eq w cs ms H1 H2)). now rewrite Hf.
Qed.

(** [GetChannelName] on caches that miss it: one refresh, one more scan. *)
Lemma GetChannelName_miss id w cs ms cl r1 e1 cs' r2 e2 ms' :
  Channels (mm w) = Some cs -> MoreChannels (mm w) = Some ms ->
  List.find (by_id id)
    (model.ChannelList_Channels cs ++ model.ChannelList_Channels ms) = None ->
  Client (mm w) = Some cl ->
  rest E (trace w) cl (api.GetChannels "") = (Some r1, e1) ->
  model.Result_Data r1 = model.DChannelList (Some cs') ->
  rest E (trace w ++ [ECall cl (api.GetChannels "")]) cl (api.GetMoreChannels "")
    = (Some r2, e2) ->
  model.Result_Data r2 = model.DChannelList (Some ms') ->
  GetChannelName E id w =
  Ret (name_of id (model.ChannelList_Channels cs' ++ model.ChannelList_Channels ms'))
      (having (did w (refresh_calls cl))
         (set_MoreChannels (Some ms') (set_Channels (Some cs') (mm w)))).
Proof.
  intros H1 H2 Hf Hc R1 D1 R2 D2. unfold GetChannelName.
  rewrite (bind_Ret _ _ _ _ _ (both_caches_eq w cs ms H1 H2)), Hf.
  rewrite (bind_Ret _ _ _ _ _ (UpdateChannels_eq w cl _ _ _ _ _ _ Hc R1 D1 R2 D2)).
  erewrite bind_Ret; [| apply both_caches_eq; reflexivity].
  unfold name_of. clear Hf. now destruct (List.find _ _).
Qed.

End Lookups.

(** ** Strings *)

Lemma append_empty_l s : "" +:+ s = s.
Proof. reflexivity. Qed.

Lemma append_String c a b : String c a +:+ b = String c (a +:+ b).
Proof. reflexivity. Qed.

Lemma append_empty_r s : s +:+ "" = s.
Proof. induction s as [|c s IH]; [reflexivity|]. now rewrite append_String, IH. Qed.

Lemma append_assoc a b c : (a +:+ b) +:+ c = a +:+ (b +:+ c).
Proof. induction a as [|x a IH]; [reflexivity|]. now rewrite !append_String, IH. Qed.

Lemma prefix_empty s : String.prefix "" s = true.
Proof. now destruct s. Qed.

Lemma prefix_marker c s :
  String.prefix "#" (String c s) = if Ascii.ascii_dec "#"%char c then true else false.
Proof.
  cbn [String.prefix].
  destruct (Ascii.ascii_dec "#"%char c); [apply prefix_empty | reflexivity].
Qed.

Lemma prefix_String a s1 c s2 :
  String.prefix (String a s1) (String c s2) =
  if Ascii.ascii_dec a c then String.prefix s1 s2 else false.
Proof. cbn [String.prefix]. now destruct (Ascii.ascii_dec a c). Qed.

Lemma replace_go_done old new s : strings.replace_go old new 0 0 s = s.
Proof. now destruct s. Qed.

(** Without a marker in it, a name is left as it is. *)
Lemma Replace_no_marker s :
  strings.Contains s "#" = false -> strings.Replace s "#" "" 1 = s.
Proof.
  unfold strings.Replace. induction s as [|c s IH]; [reflexivity|].
  cbn [strings.Contains strings.replace_go].
  destruct (String.prefix "#" (String c s)); [discriminate|].
  intros H. now rewrite IH.
Qed.

(** The first marker goes, wherever it stands; later ones stay. *)
Lemma Replace_first_marker a b :
  strings.Contains a "#" = false ->
  strings.Replace (a +:+ String "#"%char b) "#" "" 1 = a +:+ b.
Proof.
  unfold strings.Replace. induction a as [|c a IH].
  - intros _. rewrite !append_empty_l. cbn [strings.replace_go].
    rewrite prefix_marker.
    destruct (Ascii.ascii_dec "#"%char "#"%char) as [_|n]; [|now destruct n].
    rewrite append_empty_l. apply replace_go_done.
  - rewrite !append_String. cbn [strings.Contains strings.replace_go].
    rewrite !prefix_marker.
    destruct (Ascii.ascii_dec "#"%char c); [discriminate|].
    intros H. now rewrite IH.
Qed.

(** ** The command surface *)

Section Commands.

Context (E : Extern).

(** C9. [PostMessage] looks the channel name up in the two caches and
    submits the post in every case; a name found in neither cache gives
    a post whose channel identifier is empty, and it is sent all the
    same. *)
Theorem PostMessage_submits_unconditionally channel text w cs ms cl :
  Channels (mm w) = Some cs ->
  MoreChannels (mm w) = Some ms ->
  Client (mm w) = Some cl ->
  let l := (model.ChannelList_Channels cs ++ model.ChannelList_Channels ms)%list in
  let id := match List.find (by_name channel) l with
            | Some c => model.Channel_Id c
            | None => ""
            end in
  PostMessage E channel text w =
  Ret tt (did w [ECall cl (api.CreatePost
                    {| model.Post_UserId := ""; model.Post_ChannelId := id;
                       model.Post_Message := text |})]).
Proof.
  intros H1 H2 Hc l id. unfold PostMessage.
  rewrite (bind_Ret _ _ _ _ _ (GetChannelId_eq channel w cs ms H1 H2)).
  erewrite bind_Ret; [| apply call_eq; exact Hc]. reflexivity.
Qed.

(** What [JoinChannel] does with the name it was given. *)
Lemma JoinChannel_eq channel w cs ms cl :
  Channels (mm w) = Some cs ->
  MoreChannels (mm w) = Some ms ->
  Client (mm w) = Some cl ->
  let l := (model.ChannelList_Channels cs ++ model.ChannelList_Channels ms)%list in
  let id := id_of (strings.Replace channel "#" "" 1) l in
  JoinChannel E channel w =
  if String.eqb id "" then Ret (Some (errors_New "failed to join")) w
  else match snd (rest E (trace w) cl (api.JoinChannel id)) with
       | Some _ => Ret (Some (errors_New "failed to join"))
                     (did w [ECall cl (api.JoinChannel id)])
       | None => Ret None (did w [ECall cl (api.JoinChannel id)])
       end.
Proof.
  intros H1 H2 Hc l id. unfold JoinChannel.
  rewrite (bind_Ret _ _ _ _ _ (GetChannelId_eq _ w cs ms H1 H2)).
  fold l. fold id. destruct (String.eqb id ""); [reflexivity|].
  rewrite (bind_Ret _ _ _ _ _ (GetChannelId_eq _ w cs ms H1 H2)).
  fold l. fold id.
  erewrite bind_Ret; [| apply call_eq; exact Hc].
  destruct (rest E (trace w) cl (api.JoinChannel id)) as [r [e|]]; reflexivity.
Qed.

(** C7, amended. [JoinChannel] drops the first ['#'] of the name,
    wherever it stands (so a leading one is stripped, and a name without
    any is kept), and looks the rest up. An empty identifier, as for a
    name in neither cache, gives "failed to join" and no request; else
    the join request is made, and its error gives "failed to join", its
    success nil. *)
Theorem JoinChannel_drops_first_marker channel w cs ms cl :
  Channels (mm w) = Some cs ->
  MoreChannels (mm w) = Some ms ->
  Client (mm w) = Some cl ->
  let l := (model.ChannelList_Channels cs ++ model.ChannelList_Channels ms)%list in
  let id := id_of (strings.Replace channel "#" "" 1) l in
  (forall a b, strings.Contains a "#" = false ->
     strings.Replace (a +:+ String "#"%char b) "#" "" 1 = a +:+ b) /\
  (forall s, strings.Contains s "#" = false -> strings.Replace s "#" "" 1 = s) /\
  JoinChannel E channel w =
  if String.eqb id "" then Ret (Some (errors_New "failed to join")) w
  else match snd (rest E (trace w) cl (api.JoinChannel id)) with
       | Some _ => Ret (Some (errors_New "failed to join"))
                     (did w [ECall cl (api.JoinChannel id)])
       | None => Ret None (did w [ECall cl (api.JoinChannel id)])
       end.
Proof.
  intros H1 H2 Hc l id. split; [exact Replace_first_marker|].
  split; [exact Replace_no_marker|].
  exact (JoinChannel_eq channel w cs ms cl H1 H2 Hc).
Qed.

(** C8. When the backend answers a history or search request with an
    error, [GetPostsSince], [SearchPosts] and [GetPosts] return nil,
    whatever result came with the error; [UpdateChannelHeader] and
    [UpdateLastViewed] log the error and return. *)
Theorem history_errors_give_nil_updates_swallow w cl :
  Client (mm w) = Some cl ->
  (forall channelId time r e,
     rest E (trace w) cl (api.GetPostsSince channelId time) = (r, Some e) ->
     GetPostsSince E channelId time w =
     Ret None (did w [ECall cl (api.GetPostsSince channelId time)])) /\
  (forall query r e,
     rest E (trace w) cl (api.SearchPosts query) = (r, Some e) ->
     SearchPosts E query w = Ret None (did w [ECall cl (api.SearchPosts query)])) /\
  (forall channelId limit r e,
     rest E (trace w) cl (api.GetPosts channelId 0 limit "") = (r, Some e) ->
     GetPosts E channelId limit w =
     Ret None (did w [ECall cl (api.GetPosts channelId 0 limit "")])) /\
  (forall channelId header r e,
     let data : gmap string string :=
       <["channel_header" := header]> (<["channel_id" := channelId]> ∅) in
     rest E (trace w ++ [ELog (LogUpdatingHeader channelId header)]) cl
       (api.UpdateChannelHeader data) = (r, Some e) ->
     UpdateChannelHeader E channelId header w =
     Ret tt (did w [ELog (LogUpdatingHeader channelId header);
                    ECall cl (api.UpdateChannelHeader data);
                    ELog (LogAppError e)])) /\
  (forall channelId r e,
     rest E (trace w ++ [ELog (LogPostingLastview channelId)]) cl
       (api.UpdateLastViewedAt channelId) = (r, Some e) ->
     UpdateLastViewed E channelId w =
     Ret tt (did w [ELog (LogPostingLastview channelId);
                    ECall cl (api.UpdateLastViewedAt channelId);
                    ELog (LogAppError e)])).
Proof.
  intros Hc. repeat split.
  - intros channelId time r e H. unfold GetPostsSince.
    erewrite bind_Ret; [| apply call_eq; exact Hc]. now rewrite H.
  - intros query r e H. unfold SearchPosts.
    erewrite bind_Ret; [| apply call_eq; exact Hc]. now rewrite H.
  - intros channelId limit r e H. unfold GetPosts.
    erewrite bind_Ret; [| apply call_eq; exact Hc]. now rewrite H.
  - intros channelId header r e data H. unfold UpdateChannelHeader.
    unfold bind at 1. unfold log at 1. cbn [emit].
    erewrite bind_Ret; [| apply call_eq; exact Hc].
    cbn [trace mm]. fold data. rewrite H. unfold log, emit, did. cbn.
    now rewrite <- !app_assoc.
  - intros channelId r e H. unfold UpdateLastViewed.
    unfold bind at 1. unfold log at 1. cbn [emit].
    erewrite bind_Ret; [| apply call_eq; exact Hc].
    cbn [trace mm]. rewrite H. unfold log, emit, did. cbn.
    now rewrite <- !app_assoc.
Qed.

End Commands.

(** ** Channel lookups *)

Section ChannelLookups.

Context (E : Extern).

(** C4. [GetChannelName] scans the two caches, one after the other. An
    identifier found there is answered without any request. One that is
    missing costs exactly one refresh (the two channel fetches), after
    which the refreshed caches are scanned; an identifier still missing
    gives the empty string. The refresh is taken to come back with two
    channel lists. *)
Theorem GetChannelName_refreshes_once_then_empty id w cs ms cl r1 e1 cs' r2 e2 ms' :
  Channels (mm w) = Some cs ->
  MoreChannels (mm w) = Some ms ->
  Client (mm w) = Some cl ->
  rest E (trace w) cl (api.GetChannels "") = (Some r1, e1) ->
  model.Result_Data r1 = model.DChannelList (Some cs') ->
  rest E (trace w ++ [ECall cl (api.GetChannels "")]) cl (api.GetMoreChannels "")
    = (Some r2, e2) ->
  model.Result_Data r2 = model.DChannelList (Some ms') ->
  let old := (model.ChannelList_Channels cs ++ model.ChannelList_Channels ms)%list in
  let new := (model.ChannelList_Channels cs' ++ model.ChannelList_Channels ms')%list in
  match List.find (by_id id) old with
  | Some channel => GetChannelName E id w = Ret (model.Channel_Name channel) w
  | None =>
      GetChannelName E id w =
      Ret (match List.find (by_id id) new with
           | Some channel => model.Channel_Name channel
           | None => ""
           end)
          (having (did w [ECall cl (api.GetChannels ""); ECall cl (api.GetMoreChannels "")])
             (set_MoreChannels (Some ms') (set_Channels (Some cs') (mm w))))
  end.
Proof.
  intros H1 H2 Hc R1 D1 R2 D2 old new.
  destruct (List.find (by_id id) old) as [channel|] eqn:Hf.
  - exact (GetChannelName_hit E id w cs ms channel H1 H2 Hf).
  - exact (GetChannelName_miss E id w cs ms cl _ _ _ _ _ _ H1 H2 Hf Hc R1 D1 R2 D2).
Qed.

(** C5, amended. Of the three lookups only [GetChannelName] refreshes:
    on a miss it makes the two channel fetches once and scans again.
    [GetChannelHeader] and [GetChannelId] scan the caches as they are
    and make no request; a miss gives the empty string. *)
Theorem only_name_lookup_refreshes id name w cs ms cl r1 e1 cs' r2 e2 ms' :
  Channels (mm w) = Some cs ->
  MoreChannels (mm w) = Some ms ->
  Client (mm w) = Some cl ->
  rest E (trace w) cl (api.GetChannels "") = (Some r1, e1) ->
  model.Result_Data r1 = model.DChannelList (Some cs') ->
  rest E (trace w ++ [ECall cl (api.GetChannels "")]) cl (api.GetMoreChannels "")
    = (Some r2, e2) ->
  model.Result_Data r2 = model.DChannelList (Some ms') ->
  let old := (model.ChannelList_Channels cs ++ model.ChannelList_Channels ms)%list in
  let new := (model.ChannelList_Channels cs' ++ model.ChannelList_Channels ms')%list in
  (List.find (by_id id) old = None ->
   GetChannelName E id w =
   Ret (name_of id new)
       (having (did w (refresh_calls cl))
          (set_MoreChannels (Some ms') (set_Channels (Some cs') (mm w))))) /\
  GetChannelHeader id w = Ret (header_of id old) w /\
  GetChannelId name w = Ret (id_of name old) w.
Proof.
  intros H1 H2 Hc R1 D1 R2 D2 old new. split; [|split].
  - intros Hf.
    exact (GetChannelName_miss E id w cs ms cl _ _ _ _ _ _ H1 H2 Hf Hc R1 D1 R2 D2).
  - exact (GetChannelHeader_eq id w cs ms H1 H2).
  - exact (GetChannelId_eq name w cs ms H1 H2).
Qed.

End ChannelLookups.


(** ** Cache refreshes *)


Section Refresh.

Context (E : Extern).

(** A profile fetch that comes back with a profile map replaces the
    user map and returns nil, whatever error comes with the map. *)
Lemma UpdateUsers_eq w me cl r e us :
  User (mm w) = Some me ->
  Client (mm w) = Some cl ->
  rest E (trace w) cl (api.GetProfiles (model.User_TeamId me) "") = (Some r, e) ->
  model.Result_Data r = model.DProfiles us ->
  UpdateUsers E w =
  Ret None (having (did w [ECall cl (api.GetProfiles (model.User_TeamId me) "")])
              (set_Users us (mm w))).
Proof.
  intros Hu Hc R D. unfold UpdateUsers.
  unfold bind at 1. cbn [get]. rewrite Hu. cbn [deref].
  unfold bind at 1. cbn [ret].
  rewrite (bind_Ret _ _ _ _ _ (call_eq E _ w cl Hc)), R. cbn [deref].
  unfold bind at 1. cbn [ret]. rewrite D. reflexivity.
Qed.

(** A fetch that comes back without a result makes [UpdateUsers]
    dereference nil. *)
Lemma UpdateUsers_nil_result w me cl e :
  User (mm w) = Some me ->
  Client (mm w) = Some cl ->
  rest E (trace w) cl (api.GetProfiles (model.User_TeamId me) "") = (None, e) ->
  UpdateUsers E w =
  Panic (did w [ECall cl (api.GetProfiles (model.User_TeamId me) "")]).
Proof.
  intros Hu Hc R. unfold UpdateUsers.
  unfold bind at 1. cbn [get]. rewrite Hu. cbn [deref].
  unfold bind at 1. cbn [ret].
  rewrite (bind_Ret _ _ _ _ _ (call_eq E _ w cl Hc)), R. reflexivity.
Qed.

Lemma UpdateChannels_nil_result w cl e :
  Client (mm w) = Some cl ->
  rest E (trace w) cl (api.GetChannels "") = (None, e) ->
  UpdateChannels E w = Panic (did w [ECall cl (api.GetChannels "")]).
Proof.
  intros Hc R. unfold UpdateChannels.
  rewrite (bind_Ret _ _ _ _ _ (call_eq E _ w cl Hc)), R. reflexivity.
Qed.

Lemma user_at_eq id w : user_at id w = Ret (Users (mm w) !! id) w.
Proof. reflexivity. Qed.

(** The acting user when the map has a profile: no request. *)
Lemma acting_user_hit id w u :
  Users (mm w) !! id = Some u -> acting_user E id w = Ret u w.
Proof.
  intros H. unfold acting_user.
  rewrite (bind_Ret _ _ _ _ _ (user_at_eq id w)), H.
  unfold bind at 1. cbn [ret].
  now rewrite (bind_Ret _ _ _ _ _ (user_at_eq id w)), H.
Qed.



End Refresh.

(** ** The normalizer *)


Section Normalizer.

Context (E : Extern).






End Normalizer.

(** ** Direct-message channels *)

(** A name without the separator is one piece. *)
Lemma split_go_no_sep sep cur s :
  strings.Contains s sep = false -> strings.split_go sep 0 cur s = [cur +:+ s].
Proof.
  revert cur. induction s as [|c s IH]; intros cur.
  - intros _. cbn. now rewrite append_empty_r.
  - cbn [strings.Contains strings.split_go].
    destruct (String.prefix sep (String c s)); [discriminate|].
    intros H. rewrite IH by exact H.
    now rewrite append_assoc.
Qed.

(** A name that splits into two pieces or more has the separator. *)
Lemma Split_two_Contains s sep a b rest :
  strings.Split s sep = a :: b :: rest -> strings.Contains s sep = true.
Proof.
  intros H. destruct (strings.Contains s sep) eqn:Hc; [reflexivity|].
  unfold strings.Split in H. rewrite (split_go_no_sep sep "" s Hc) in H.
  discriminate.
Qed.

(** A channel named by two identifiers around the separator splits
    into the two, when the first has no underscore and the second no
    separator in it. *)
Lemma Split_pair U1 U2 :
  strings.Contains U1 "_" = false ->
  strings.Contains U2 "__" = false ->
  strings.Split (U1 +:+ "__" +:+ U2) "__" = [U1; U2].
Proof.
  intros H1 H2. unfold strings.Split.
  enough (G : forall cur,
             strings.split_go "__" 0 cur (U1 +:+ "__" +:+ U2) = [cur +:+ U1; U2])
    by apply (G "").
  induction U1 as [|c U1 IH]; intros cur.
  - rewrite append_empty_l, append_empty_r.
    change ("__" +:+ U2) with (String "_"%char (String "_"%char U2)).
    cbn [strings.split_go]. rewrite !prefix_String, prefix_empty.
    destruct (Ascii.ascii_dec "_"%char "_"%char) as [_|n]; [|now destruct n].
    cbn [String.length Nat.sub strings.split_go].
    now rewrite (split_go_no_sep "__" "" U2 H2).
  - cbn [strings.Contains] in H1. rewrite prefix_String in H1.
    destruct (Ascii.ascii_dec "_"%char c) as [|Hne];
      [rewrite prefix_empty in H1; discriminate|].
    rewrite append_String. cbn [strings.split_go]. rewrite prefix_String.
    destruct (Ascii.ascii_dec "_"%char c) as [|_]; [contradiction|].
    rewrite (IH H1). now rewrite append_assoc.
Qed.

Section DirectMessages.

Context (E : Extern).

(** The rewrite picks the participant who is not the session user. *)
Lemma direct_message_eq channel w U1 U2 rest me other uo :
  strings.Split channel "__" = U1 :: U2 :: rest ->
  User (mm w) = Some me ->
  (model.User_Id me = U1 /\ other = U2) \/ (model.User_Id me = U2 /\ other = U1) ->
  Users (mm w) !! other = Some uo ->
  direct_message channel w = Ret (model.User_Username uo) w.
Proof.
  intros Hs Hme Hwho Ho. unfold direct_message.
  rewrite (Split_two_Contains _ _ _ _ _ Hs), Hs.
  change ((U1 :: U2 :: rest) !! 0%nat) with (Some U1).
  change ((U1 :: U2 :: rest) !! 1%nat) with (Some U2).
  unfold bind at 1. cbn [deref ret].
  unfold bind at 1. cbn [get].
  unfold bind at 1. rewrite Hme. cbn [deref ret].
  assert (Hpick : (if negb (String.eqb U1 (model.User_Id me)) then U1 else U2) = other).
  { destruct (String.eqb_spec U1 (model.User_Id me)) as [Heq|Hne]; cbn.
    - destruct Hwho as [[_ ->] | [H ->]]; congruence.
    - destruct Hwho as [[H _] | [_ ->]]; congruence. }
  destruct (negb (String.eqb U1 (model.User_Id me))); subst other.
  - rewrite (bind_Ret _ _ _ _ _ (user_at_eq U1 w)), Ho. reflexivity.
  - unfold bind at 1. cbn [deref ret].
    rewrite (bind_Ret _ _ _ _ _ (user_at_eq U2 w)), Ho. reflexivity.
Qed.

(** C3. When the channel name resolved for a post splits at ["__"]
    into [U1], [U2] (and maybe more), the message's channel is the
    username the user map holds for the other participant: for [U2]
    when the session user is [U1], for [U1] when it is [U2]. *)
Theorem direct_message_shows_counterpart
    rmsg w0 w1 w2 d u name U1 U2 rest me other uo :
  PostFromJson E (payload rmsg) = Some d ->
  acting_user E (model.Post_UserId d) w0 = Ret u w1 ->
  GetChannelName E (model.Post_ChannelId d) w1 = Ret name w2 ->
  strings.Split name "__" = U1 :: U2 :: rest ->
  User (mm w2) = Some me ->
  (model.User_Id me = U1 /\ other = U2) \/ (model.User_Id me = U2 /\ other = U1) ->
  Users (mm w2) !! other = Some uo ->
  exists msg,
    parseActionPost E rmsg w0 = Ret msg w2 /\
    Msg_Channel msg = model.User_Username uo /\
    Msg_Username msg = model.User_Username u /\
    Msg_Text msg = model.Post_Message d /\
    Msg_Post msg = Some d.
Proof.
  intros Hd Hu Hn Hs Hme Hwho Ho. unfold parseActionPost. rewrite Hd.
  unfold bind at 1. cbn [deref ret].
  rewrite (bind_Ret _ _ _ _ _ Hu).
  rewrite (bind_Ret _ _ _ _ _ Hn).
  rewrite (bind_Ret _ _ _ _ _
             (direct_message_eq name w2 U1 U2 rest me other uo Hs Hme Hwho Ho)).
  eexists. split; [reflexivity|]. cbn. auto.
Qed.

End DirectMessages.

(** ** Login *)

Lemma sleeps_app t1 t2 : sleeps (t1 ++ t2) = sleeps t1 + sleeps t2.
Proof. unfold sleeps. now rewrite List.filter_app, List.length_app. Qed.

Section LoginRetries.

Context (E : Extern).

(** The test of lines 71-72 is the negation of [transient]. *)
Lemma permanent_test e :
  negb (strings.Contains (model.AppError_DetailedError e) "connection refused")
  && negb (strings.Contains (model.AppError_DetailedError e) "invalid character")
  = negb (transient e).
Proof. unfold transient. now rewrite negb_orb. Qed.

(** One attempt of the loop, up to the answer of the backend. *)
Lemma login_loop_attempt fuel b w cl :
  Client (mm w) = Some cl ->
  login_loop E (S fuel) b w =
  let w1 := did w [ELog (login_line (mm w)); ECall cl (login_call (mm w))] in
  match rest E (trace w ++ [ELog (login_line (mm w))]) cl (login_call (mm w)) with
  | (myinfo, Some e) =>
      if transient e
      then
        let d := ForAttempt E (trace w1) b in
        login_loop E fuel (tick b) (did w1 [ELog (LogLogin e d); ESleep d])
      else Ret (inl (errors_New (model.AppError_Message e))) w1
  | (myinfo, None) => Ret (inr (myinfo, b)) w1
  end.
Proof.
  intros Hc. cbn [login_loop].
  unfold bind at 1. cbn [get].
  unfold bind at 1. unfold log at 1. cbn [emit].
  erewrite bind_Ret; [| apply call_eq; exact Hc].
  cbn [mm trace did]. fold (login_call (mm w)). fold (login_line (mm w)).
  replace (did {| mm := mm w; trace := trace w ++ [ELog (login_line (mm w))] |}
             [ECall cl (login_call (mm w))])
    with (did w [ELog (login_line (mm w)); ECall cl (login_call (mm w))])
    by (unfold did; cbn [mm trace]; now rewrite <- app_assoc).
  destruct (rest E (trace w ++ [ELog (login_line (mm w))]) cl (login_call (mm w)))
    as [myinfo [e|]]; [|reflexivity].
  unfold bind at 1. unfold Duration at 1. unfold bind at 1. cbn [history ret].
  rewrite permanent_test. fold (tick b).
  destruct (transient e); cbn [negb]; [|reflexivity].
  unfold bind at 1. unfold log at 1. cbn [emit].
  unfold bind at 1. unfold Sleep at 1. cbn [emit mm trace].
  f_equal. unfold did. cbn [mm trace]. now rewrite <- !app_assoc.
Qed.

Lemma login_loop_nil_client fuel b w :
  Client (mm w) = None ->
  login_loop E (S fuel) b w = Panic (did w [ELog (login_line (mm w))]).
Proof.
  intros Hc. cbn [login_loop].
  unfold bind at 1. cbn [get].
  unfold bind at 1. unfold log at 1. cbn [emit].
  erewrite bind_Panic; [reflexivity|]. now apply call_nil_client.
Qed.

(** An error leaves the loop only as the message of a backend error
    that is not transient, and right after the request that got it. *)
Lemma login_loop_error_inv fuel : forall b w err w',
  login_loop E fuel b w = Ret (inl err) w' ->
  mm w' = mm w /\
  exists h cl r e,
    trace w' = (h ++ [ECall cl (login_call (mm w))])%list /\
    Client (mm w) = Some cl /\
    rest E h cl (login_call (mm w)) = (r, Some e) /\
    transient e = false /\
    err = errors_New (model.AppError_Message e).
Proof.
  induction fuel as [|fuel IH]; intros b w err w' H; [discriminate|].
  destruct (Client (mm w)) as [cl|] eqn:Hc;
    [|rewrite (login_loop_nil_client fuel b w Hc) in H; discriminate].
  rewrite (login_loop_attempt fuel b w cl Hc) in H. cbv zeta in H.
  destruct (rest E (trace w ++ [ELog (login_line (mm w))]) cl (login_call (mm w)))
    as [myinfo [e|]] eqn:R; [|discriminate].
  destruct (transient e) eqn:T.
  - apply IH in H as (Hm & h & cl' & r & e' & Ht & Hc' & R' & T' & ->).
    cbn [did mm] in Hm, Ht, Hc', R'. split; [exact Hm|].
    exists h, cl', r, e'. intuition congruence.
  - injection H as <- <-. split; [reflexivity|].
    exists (trace w ++ [ELog (login_line (mm w))])%list, cl, myinfo, e.
    cbn [did trace]. rewrite <- app_assoc. auto.
Qed.


(** A [Login] that returns an error got it from the login loop: past
    the loop it returns nil if it returns. *)
Lemma Login_error_from_loop fuel w err w' :
  Login E fuel w = Ret (Some err) w' ->
  login_loop E fuel
    {| Min := Second; Max := 5 * Minute; Jitter := true; attempt := 0 |}
    (having w (set_Client (Some (NewClient (mm w))) (mm w)))
  = Ret (inl err) w'.
Proof.
  intros H. unfold Login in H.
  unfold bind at 1 in H. cbn [get] in H.
  unfold bind at 1 in H. unfold modify at 1, bind at 1 in H. cbn [get put] in H.
  fold (NewClient (mm w)) in H.
  fold (having w (set_Client (Some (NewClient (mm w))) (mm w))) in H.
  apply bind_Ret_inv in H as (r & w1 & H1 & H).
  destruct r as [err'|[myinfo b]].
  - injection H as <- <-. exact H1.
  - exfalso.
    repeat first
      [ apply bind_Ret_inv in H; destruct H as (? & ? & _ & H)
      | match type of H with
        | (let '(_, _) := ?x in _) _ = _ => destruct x
        end ].
    discriminate H.
Qed.

Lemma Login_enters_loop fuel w :
  Login E fuel w =
  bind (login_loop E fuel
          {| Min := Second; Max := 5 * Minute; Jitter := true; attempt := 0 |})
       (fun r =>
          match r with
          | inl err => ret (Some err)
          | inr (myinfo, b) =>
              let b := Reset b in
              let* r := deref myinfo in
              let* u := as_User (model.Result_Data r) in
              modify (set_User u);;
              let* '(myinfo, _) := call E (api.GetMyTeam "") in
              let* r := deref myinfo in
              let* t := as_Team (model.Result_Data r) in
              modify (set_Team t);;
              let wsurl := (if cred_NoTLS (Creds (mm w)) then "ws://" else "wss://")
                           +:+ cred_Server (Creds (mm w)) +:+ "/api/v1/websocket" in
              let* m' := get in
              let* cl := deref (Client m') in
              let* h := history in
              let bearer := "BEARER " +:+ AuthToken E h cl in
              let* '(ws, b) := dial_loop E fuel wsurl bearer b in
              let b := Reset b in
              modify (set_WsClient ws);;
              UpdateUsers E;;
              UpdateChannels E;;
              ret None
          end)
       (having w (set_Client (Some (NewClient (mm w))) (mm w))).
Proof. reflexivity. Qed.


End LoginRetries.

(** ** The receiver loop *)

Section Receiver.

Context (E : Extern).

(** Parsing fills the envelope in; the frame in it stays. *)
Lemma parseMessage_Raw msg w msg' w' :
  parseMessage E msg w = Ret msg' w' -> Msg_Raw msg' = Msg_Raw msg.
Proof.
  unfold parseMessage.
  destruct (String.eqb (model.Raw_Action (Msg_Raw msg)) model.ACTION_POSTED).
  - unfold parseActionPost. intros H.
    apply bind_Ret_inv in H as (d & w1 & _ & H).
    apply bind_Ret_inv in H as (u & w2 & _ & H).
    apply bind_Ret_inv in H as (ch & w3 & _ & H).
    apply bind_Ret_inv in H as (ch' & w4 & _ & H).
    now injection H as <- _.
  - intros H. now injection H as <- _.
Qed.

(** Every turn of the loop that comes to its end has sent a message,
    the turn whose read failed like any other: after the re-login the
    turn goes on with what the variable holds. *)
Lemma WsReceiver_turn_emits fuel rmsg w r w' :
  WsReceiver_turn E fuel rmsg w = Ret r w' ->
  exists ws t msg,
    WsClient (mm w) = Some ws /\
    r = fst (ReadJSON E (trace w) ws rmsg) /\
    trace w' = (t ++ [EEmit msg])%list /\
    Msg_Raw msg = r.
Proof.
  intros H. unfold WsReceiver_turn in H.
  unfold bind at 1 in H. cbn [get] in H.
  destruct (WsClient (mm w)) as [ws|]; [|discriminate].
  unfold bind at 1 in H. cbn [deref ret] in H.
  unfold bind at 1 in H. cbn [history] in H.
  unfold bind at 1 in H. cbn [emit] in H.
  cbn [mm trace] in H.
  destruct (ReadJSON E (trace w) ws rmsg) as [rmsg' err] eqn:R.
  apply bind_Ret_inv in H as ([] & w1 & _ & H).
  apply bind_Ret_inv in H as (m & w2 & Hg & H).
  injection Hg as <- <-.
  apply bind_Ret_inv in H as (msg & w3 & Hp & H).
  apply parseMessage_Raw in Hp. cbn [Msg_Raw] in Hp.
  unfold bind, emit, ret in H. injection H as <- <-.
  exists ws, (trace w3), msg. now rewrite R.
Qed.

(** The turn whose read fails: the error is logged, [Login] runs and
    its result is dropped, and the turn then parses and sends what the
    variable holds. *)
Lemma WsReceiver_turn_failed_read fuel rmsg w ws rmsg' e res w1 msg w2 :
  WsClient (mm w) = Some ws ->
  ReadJSON E (trace w) ws rmsg = (rmsg', Some e) ->
  Login E fuel (did w [ERead ws; ELog (LogReadError e)]) = Ret res w1 ->
  parseMessage E {| Msg_Raw := rmsg'; Msg_Post := None;
                    Msg_Team := cred_Team (Creds (mm w1)); Msg_Channel := "";
                    Msg_Username := ""; Msg_Text := "" |} w1 = Ret msg w2 ->
  WsReceiver_turn E fuel rmsg w = Ret rmsg' (did w2 [EEmit msg]).
Proof.
  intros Hws R HL HP. unfold WsReceiver_turn.
  unfold bind at 1. cbn [get]. rewrite Hws.
  unfold bind at 1. cbn [deref ret].
  unfold bind at 1. cbn [history].
  unfold bind at 1. cbn [emit mm trace]. rewrite R.
  unfold bind at 1. unfold bind at 1. unfold bind at 1. unfold log at 1.
  cbn [emit mm trace].
  replace {| mm := mm w; trace := (trace w ++ [ERead ws]) ++ [ELog (LogReadError e)] |}
    with (did w [ERead ws; ELog (LogReadError e)])
    by (unfold did; now rewrite <- app_assoc).
  rewrite HL. cbn [ret].
  unfold bind at 1. cbn [get].
  now rewrite (bind_Ret _ _ _ _ _ HP).
Qed.

End Receiver.

(** ** What the command surface leaves alone *)

(** Unfolds the monad in the goal and splits on everything the code
    branches on. *)
Ltac run :=
  cbv beta iota delta
    [bind ret get put modify history emit deref panic running call log Sleep
     user_at as_User as_Team as_Profiles as_ChannelList as_PostList after];
  cbn [mm trace];
  repeat match goal with
         | |- context [match ?x with _ => _ end] =>
             lazymatch x with
             | context [match _ with _ => _ end] => fail
             | _ => destruct x eqn:?; cbv beta iota; cbn [mm trace]
             end
         end.

Section Session.

Context (E : Extern).

Lemma JoinChannel_mm channel w : mm (after (JoinChannel E channel w)) = mm w.
Proof. unfold JoinChannel, GetChannelId, both_caches. run; reflexivity. Qed.

Lemma PostMessage_mm channel text w :
  mm (after (PostMessage E channel text w)) = mm w.
Proof. unfold PostMessage, GetChannelId, both_caches. run; reflexivity. Qed.

Lemma GetPostsSince_mm channelId time w :
  mm (after (GetPostsSince E channelId time w)) = mm w.
Proof. unfold GetPostsSince. run; reflexivity. Qed.

Lemma SearchPosts_mm query w : mm (after (SearchPosts E query w)) = mm w.
Proof. unfold SearchPosts. run; reflexivity. Qed.

Lemma GetPosts_mm channelId limit w :
  mm (after (GetPosts E channelId limit w)) = mm w.
Proof. unfold GetPosts. run; reflexivity. Qed.

Lemma UpdateChannelHeader_mm channelId header w :
  mm (after (UpdateChannelHeader E channelId header w)) = mm w.
Proof. unfold UpdateChannelHeader. run; reflexivity. Qed.

Lemma UpdateLastViewed_mm channelId w :
  mm (after (UpdateLastViewed E channelId w)) = mm w.
Proof. unfold UpdateLastViewed. run; reflexivity. Qed.

(** X1. None of the request/response methods assigns to a field of the
    client, whatever the backend answers and however the call ends:
    joining a channel moves nothing between the two caches, and the
    posts fetched are not kept. *)
Theorem commands_leave_session_alone w :
  (forall channel, mm (after (JoinChannel E channel w)) = mm w) /\
  (forall channel text, mm (after (PostMessage E channel text w)) = mm w) /\
  (forall channelId time, mm (after (GetPostsSince E channelId time w)) = mm w) /\
  (forall query, mm (after (SearchPosts E query w)) = mm w) /\
  (forall channelId limit, mm (after (GetPosts E channelId limit w)) = mm w) /\
  (forall channelId header,
     mm (after (UpdateChannelHeader E channelId header w)) = mm w) /\
  (forall channelId, mm (after (UpdateLastViewed E channelId w)) = mm w).
Proof.
  repeat apply conj; intros.
  - apply JoinChannel_mm.
  - apply PostMessage_mm.
  - apply GetPostsSince_mm.
  - apply SearchPosts_mm.
  - apply GetPosts_mm.
  - apply UpdateChannelHeader_mm.
  - apply UpdateLastViewed_mm.
Qed.

(** X2. A header update that the backend accepted is not written to
    the caches: the header lookup that follows still answers with the
    header the caches held before. *)
Theorem header_update_is_not_cached channelId header w cs ms w' :
  Channels (mm w) = Some cs ->
  MoreChannels (mm w) = Some ms ->
  UpdateChannelHeader E channelId header w = Ret tt w' ->
  GetChannelHeader channelId w' =
  Ret (header_of channelId
         (model.ChannelList_Channels cs ++ model.ChannelList_Channels ms)) w'.
Proof.
  intros H1 H2 H.
  pose proof (UpdateChannelHeader_mm channelId header w) as Hm.
  rewrite H in Hm. cbn [after] in Hm.
  apply GetChannelHeader_eq; now rewrite Hm.
Qed.

(** Two entries of a list that agree on a key whose values are all
    different in that list are the same entry. *)
Lemma NoDup_map_In_eq {A B} (f : A -> B) (l : list A) x y :
  List.NoDup (List.map f l) -> List.In x l -> List.In y l -> f x = f y -> x = y.
Proof.
  induction l as [|a l IH]; [now intros _ []|].
  cbn [List.map]. intros Hnd Hx Hy Hf.
  apply List.NoDup_cons_iff in Hnd as [Hn Hnd].
  destruct Hx as [->|Hx], Hy as [->|Hy]; auto.
  - exfalso. apply Hn. rewrite Hf. now apply List.in_map.
  - exfalso. apply Hn. rewrite <- Hf. now apply List.in_map.
Qed.

(** X3. On caches whose channel identifiers are all different, a name
    the caches know resolves to an identifier that resolves back to
    that name, with no request; on caches whose names are all
    different, an identifier they know resolves to a name that
    resolves back to it. *)
Theorem lookups_round_trip w cs ms :
  Channels (mm w) = Some cs ->
  MoreChannels (mm w) = Some ms ->
  let l := (model.ChannelList_Channels cs ++ model.ChannelList_Channels ms)%list in
  (List.NoDup (List.map model.Channel_Id l) ->
   forall name c,
     List.find (by_name name) l = Some c ->
     GetChannelId name w = Ret (model.Channel_Id c) w /\
     GetChannelName E (model.Channel_Id c) w = Ret name w) /\
  (List.NoDup (List.map model.Channel_Name l) ->
   forall id c,
     List.find (by_id id) l = Some c ->
     GetChannelName E id w = Ret (model.Channel_Name c) w /\
     GetChannelId (model.Channel_Name c) w = Ret id w).
Proof.
  intros H1 H2 l. split.
  - intros Hnd name c Hf.
    apply List.find_some in Hf as Hc. destruct Hc as [Hin Hn].
    apply String.eqb_eq in Hn. split.
    + rewrite (GetChannelId_eq name w cs ms H1 H2). fold l.
      unfold id_of. now rewrite Hf.
    + destruct (List.find (by_id (model.Channel_Id c)) l) as [c'|] eqn:Hf'.
      * apply List.find_some in Hf' as Hc'. destruct Hc' as [Hin' Hi'].
        apply String.eqb_eq in Hi'.
        rewrite (NoDup_map_In_eq _ l c' c Hnd Hin' Hin Hi') in Hf'.
        rewrite (GetChannelName_hit E _ w cs ms c H1 H2 Hf'). now rewrite Hn.
      * exfalso.
        pose proof (List.find_none _ _ Hf' c Hin) as Hno.
        unfold by_id in Hno. now rewrite String.eqb_refl in Hno.
  - intros Hnd id c Hf.
    apply List.find_some in Hf as Hc. destruct Hc as [Hin Hi].
    apply String.eqb_eq in Hi. split.
    + exact (GetChannelName_hit E id w cs ms c H1 H2 Hf).
    + rewrite (GetChannelId_eq _ w cs ms H1 H2). fold l. unfold id_of.
      destruct (List.find (by_name (model.Channel_Name c)) l) as [c'|] eqn:Hf'.
      * apply List.find_some in Hf' as Hc'. destruct Hc' as [Hin' Hn'].
        apply String.eqb_eq in Hn'.
        now rewrite (NoDup_map_In_eq _ l c' c Hnd Hin' Hin Hn'), Hi.
      * exfalso.
        pose proof (List.find_none _ _ Hf' c Hin) as Hno.
        unfold by_name in Hno. now rewrite String.eqb_refl in Hno.
Qed.

Lemma find_app {A} (f : A -> bool) l1 l2 :
  List.find f (l1 ++ l2) =
  match List.find f l1 with
  | Some x => Some x
  | None => List.find f l2
  end.
Proof.
  induction l1 as [|a l1 IH]; [reflexivity|].
  cbn [app List.find]. now destruct (f a).
Qed.

(** X4. The joined channels are scanned first: what the joined cache
    holds for an identifier or a name is what the lookups answer,
    whatever the other cache holds for it, and the name lookup makes no
    refresh. *)
Theorem joined_cache_takes_precedence w cs ms c :
  Channels (mm w) = Some cs ->
  MoreChannels (mm w) = Some ms ->
  (forall id,
     List.find (by_id id) (model.ChannelList_Channels cs) = Some c ->
     GetChannelName E id w = Ret (model.Channel_Name c) w /\
     GetChannelHeader id w = Ret (model.Channel_Header c) w) /\
  (forall name,
     List.find (by_name name) (model.ChannelList_Channels cs) = Some c ->
     GetChannelId name w = Ret (model.Channel_Id c) w).
Proof.
  intros H1 H2. split.
  - intros id Hf. split.
    + apply (GetChannelName_hit E id w cs ms c H1 H2). now rewrite find_app, Hf.
    + rewrite (GetChannelHeader_eq id w cs ms H1 H2). unfold header_of.
      now rewrite find_app, Hf.
  - intros name Hf. rewrite (GetChannelId_eq name w cs ms H1 H2). unfold id_of.
    now rewrite find_app, Hf.
Qed.

End Session.

(** ** History and search, and a client before its login *)

Section History.

Context (E : Extern).

(** X5. An answer without an error makes the three history and search
    methods hand out the post list of the result as it is (a nil list
    included), for one request each; an answer with neither error nor
    result, or with a result of another shape, is a panic. *)
Theorem history_success_returns_backend_list w cl :
  Client (mm w) = Some cl ->
  (forall channelId time,
     match rest E (trace w) cl (api.GetPostsSince channelId time) with
     | (Some r, None) =>
         match model.Result_Data r with
         | model.DPostList pl =>
             GetPostsSince E channelId time w =
             Ret pl (did w [ECall cl (api.GetPostsSince channelId time)])
         | _ =>
             GetPostsSince E channelId time w =
             Panic (did w [ECall cl (api.GetPostsSince channelId time)])
         end
     | (None, None) =>
         GetPostsSince E channelId time w =
         Panic (did w [ECall cl (api.GetPostsSince channelId time)])
     | (_, Some _) => True
     end) /\
  (forall query,
     match rest E (trace w) cl (api.SearchPosts query) with
     | (Some r, None) =>
         match model.Result_Data r with
         | model.DPostList pl =>
             SearchPosts E query w = Ret pl (did w [ECall cl (api.SearchPosts query)])
         | _ =>
             SearchPosts E query w = Panic (did w [ECall cl (api.SearchPosts query)])
         end
     | (None, None) =>
         SearchPosts E query w = Panic (did w [ECall cl (api.SearchPosts query)])
     | (_, Some _) => True
     end) /\
  (forall channelId limit,
     match rest E (trace w) cl (api.GetPosts channelId 0 limit "") with
     | (Some r, None) =>
         match model.Result_Data r with
         | model.DPostList pl =>
             GetPosts E channelId limit w =
             Ret pl (did w [ECall cl (api.GetPosts channelId 0 limit "")])
         | _ =>
             GetPosts E channelId limit w =
             Panic (did w [ECall cl (api.GetPosts channelId 0 limit "")])
         end
     | (None, None) =>
         GetPosts E channelId limit w =
         Panic (did w [ECall cl (api.GetPosts channelId 0 limit "")])
     | (_, Some _) => True
     end).
Proof.
  intros Hc. repeat apply conj; intros.
  - unfold GetPostsSince. erewrite bind_Ret; [| apply call_eq; exact Hc].
    destruct (rest E (trace w) cl _) as [[r|] [e|]]; try exact I; [|reflexivity].
    cbn [deref]. unfold bind, ret.
    destruct (model.Result_Data r); reflexivity.
  - unfold SearchPosts. erewrite bind_Ret; [| apply call_eq; exact Hc].
    destruct (rest E (trace w) cl _) as [[r|] [e|]]; try exact I; [|reflexivity].
    cbn [deref]. unfold bind, ret.
    destruct (model.Result_Data r); reflexivity.
  - unfold GetPosts. erewrite bind_Ret; [| apply call_eq; exact Hc].
    destruct (rest E (trace w) cl _) as [[r|] [e|]]; try exact I; [|reflexivity].
    cbn [deref]. unfold bind, ret.
    destruct (model.Result_Data r); reflexivity.
Qed.

(** X6. A client as [New] makes it has no REST handle, no stream and
    no caches. Until [Login] has run, every lookup, every command,
    both refreshes and the receiver's turn panic on a nil field, and
    none of them gets as far as a request. *)
Theorem methods_panic_before_Login login pass team server t :
  let w := {| mm := New login pass team server; trace := t |} in
  (forall id, GetChannelName E id w = Panic w) /\
  (forall name, GetChannelId name w = Panic w) /\
  (forall id, GetChannelHeader id w = Panic w) /\
  (forall channel text, PostMessage E channel text w = Panic w) /\
  (forall channel, JoinChannel E channel w = Panic w) /\
  UpdateUsers E w = Panic w /\
  UpdateChannels E w = Panic w /\
  (forall channelId time, GetPostsSince E channelId time w = Panic w) /\
  (forall query, SearchPosts E query w = Panic w) /\
  (forall channelId limit, GetPosts E channelId limit w = Panic w) /\
  (forall channelId header,
     UpdateChannelHeader E channelId header w =
     Panic (did w [ELog (LogUpdatingHeader channelId header)])) /\
  (forall channelId,
     UpdateLastViewed E channelId w =
     Panic (did w [ELog (LogPostingLastview channelId)])) /\
  (forall fuel rmsg, WsReceiver_turn E fuel rmsg w = Panic w).
Proof.
  intros w. repeat apply conj; intros; reflexivity.
Qed.

End History.

(** ** Refreshing the caches *)

Section Wholesale.

Context (E : Extern).


(** X8. The two caches are not replaced together. When the first
    fetch of a refresh comes back with a list and the second comes back
    without a result, the refresh panics with the joined cache already
    replaced and the other cache still the old one. *)
Theorem refresh_can_stop_halfway w cl r1 e1 c1 e2 :
  Client (mm w) = Some cl ->
  rest E (trace w) cl (api.GetChannels "") = (Some r1, e1) ->
  model.Result_Data r1 = model.DChannelList c1 ->
  rest E (trace w ++ [ECall cl (api.GetChannels "")]) cl (api.GetMoreChannels "")
    = (None, e2) ->
  UpdateChannels E w =
  Panic (having (did w (refresh_calls cl)) (set_Channels c1 (mm w))) /\
  MoreChannels (set_Channels c1 (mm w)) = MoreChannels (mm w).
Proof.
  intros Hc R1 D1 R2. split; [|reflexivity]. unfold UpdateChannels.
  rewrite (bind_Ret _ _ _ _ _ (call_eq E _ w cl Hc)), R1. cbn [deref].
  unfold bind at 1. cbn [ret]. rewrite D1. cbn [as_ChannelList].
  unfold bind at 1. cbn [ret].
  unfold bind at 1. unfold modify, bind at 1, get, put. cbn [mm trace did].
  erewrite bind_Ret; [| apply call_eq; exact Hc].
  cbn [mm trace did]. rewrite R2. cbn [deref].
  unfold bind, panic, having, did, refresh_calls. cbn [mm trace].
  now rewrite <- app_assoc.
Qed.

End Wholesale.

(** ** The stream connector and the backoff *)

Section Connector.

Context (E : Extern).

(** One attempt of the dial loop, up to the answer of the dialer. *)
Lemma dial_loop_attempt fuel wsurl bearer b w :
  dial_loop E (S fuel) wsurl bearer b w =
  let w1 := did w [EDial wsurl bearer] in
  match Dial E (trace w) wsurl bearer with
  | (ws, Some e) =>
      let d := ForAttempt E (trace w1) b in
      dial_loop E fuel wsurl bearer (tick b) (did w1 [ELog (LogWss e d); ESleep d])
  | (ws, None) => Ret (ws, b) w1
  end.
Proof.
  cbn [dial_loop]. unfold bind at 1. cbn [history].
  unfold bind at 1. cbn [emit]. fold (did w [EDial wsurl bearer]).
  destruct (Dial E (trace w) wsurl bearer) as [ws [e|]]; [|reflexivity].
  unfold bind at 1. unfold Duration at 1. unfold bind at 1. cbn [history ret].
  fold (tick b).
  unfold bind at 1. unfold log at 1. cbn [emit].
  unfold bind at 1. unfold Sleep at 1. cbn [emit mm trace].
  cbv zeta. f_equal. unfold did. cbn [mm trace]. now rewrite <- !app_assoc.
Qed.

(** The dial loop leaves only after a dial that succeeded; by then the
    backoff has counted the sleeps. *)
Lemma dial_loop_inv fuel wsurl bearer : forall b w ws b' w',
  dial_loop E fuel wsurl bearer b w = Ret (ws, b') w' ->
  mm w' = mm w /\
  attempt b' + sleeps (trace w) = attempt b + sleeps (trace w') /\
  exists h,
    trace w' = (h ++ [EDial wsurl bearer])%list /\
    Dial E h wsurl bearer = (ws, None).
Proof.
  induction fuel as [|fuel IH]; intros b w ws b' w' H; [discriminate|].
  rewrite dial_loop_attempt in H. cbv zeta in H.
  destruct (Dial E (trace w) wsurl bearer) as [ws0 [e|]] eqn:D.
  - apply IH in H as (Hm & Hs & h & Ht & Hd).
    cbn [did mm trace attempt tick] in Hm, Hs.
    rewrite !sleeps_app in Hs. cbn in Hs.
    split; [exact Hm|]. split; [lia|]. now exists h.
  - injection H as <- <- <-. cbn [did mm trace].
    split; [reflexivity|]. split.
    + rewrite sleeps_app. cbn. lia.
    + now exists (trace w).
Qed.

Lemma dial_loop_retries_forever fuel wsurl bearer : forall b w,
  (forall h, exists ws e, Dial E h wsurl bearer = (ws, Some e)) ->
  exists w',
    dial_loop E fuel wsurl bearer b w = Running w' /\
    sleeps (trace w') = sleeps (trace w) + fuel.
Proof.
  induction fuel as [|fuel IH]; intros b w Hall.
  - exists w. split; [reflexivity|lia].
  - rewrite dial_loop_attempt. cbv zeta.
    destruct (Hall (trace w)) as (ws & e & ->).
    edestruct (IH (tick b)) as (w' & -> & Hs); [exact Hall|].
    exists w'. split; [reflexivity|]. rewrite Hs.
    cbn [did trace]. rewrite !sleeps_app. cbn. lia.
Qed.

(** X9. The dial loop never gives up and never hands out an error. A
    dial that fails is logged and slept on for the delay of the
    backoff at its current attempt, the attempt counter moves on, and
    the same URL is dialled again; a dial that succeeds ends the loop
    at once. So the loop returns only with the connection of a
    successful dial, having slept as many times as the counter moved,
    and against a dialer that always fails it is still running after
    any number of attempts. *)
Theorem dial_loop_retries_until_connected wsurl bearer :
  (forall fuel b w ws e,
     Dial E (trace w) wsurl bearer = (ws, Some e) ->
     let d := ForAttempt E (trace w ++ [EDial wsurl bearer]) b in
     dial_loop E (S fuel) wsurl bearer b w =
     dial_loop E fuel wsurl bearer (tick b)
       (did w [EDial wsurl bearer; ELog (LogWss e d); ESleep d])) /\
  (forall fuel b w ws,
     Dial E (trace w) wsurl bearer = (ws, None) ->
     dial_loop E (S fuel) wsurl bearer b w = Ret (ws, b) (did w [EDial wsurl bearer])) /\
  (forall fuel b w ws b' w',
     dial_loop E fuel wsurl bearer b w = Ret (ws, b') w' ->
     mm w' = mm w /\
     attempt b' + sleeps (trace w) = attempt b + sleeps (trace w') /\
     exists h,
       trace w' = (h ++ [EDial wsurl bearer])%list /\
       Dial E h wsurl bearer = (ws, None)) /\
  ((forall h, exists ws e, Dial E h wsurl bearer = (ws, Some e)) ->
   forall fuel b w, exists w',
     dial_loop E fuel wsurl bearer b w = Running w' /\
     sleeps (trace w') = sleeps (trace w) + fuel).
Proof.
  repeat apply conj.
  - intros fuel b w ws e D d. rewrite dial_loop_attempt, D. cbv zeta.
    f_equal. unfold d, did. cbn [mm trace]. now rewrite <- app_assoc.
  - intros fuel b w ws D. now rewrite dial_loop_attempt, D.
  - intros fuel. apply dial_loop_inv.
  - intros Hall fuel b w. now apply dial_loop_retries_forever.
Qed.

(** X10. The login loop gets past the login only with an answer that
    carries no error; it has then changed nothing in the client, and
    the attempt counter of its backoff has moved once for each time it
    slept. *)
Theorem login_loop_counts_its_sleeps fuel : forall b w myinfo b' w',
  login_loop E fuel b w = Ret (inr (myinfo, b')) w' ->
  mm w' = mm w /\
  attempt b' + sleeps (trace w) = attempt b + sleeps (trace w') /\
  exists h cl,
    trace w' = (h ++ [ECall cl (login_call (mm w))])%list /\
    Client (mm w) = Some cl /\
    rest E h cl (login_call (mm w)) = (myinfo, None).
Proof.
  induction fuel as [|fuel IH]; intros b w myinfo b' w' H; [discriminate|].
  destruct (Client (mm w)) as [cl|] eqn:Hc;
    [|rewrite (login_loop_nil_client E fuel b w Hc) in H; discriminate].
  rewrite (login_loop_attempt E fuel b w cl Hc) in H. cbv zeta in H.
  destruct (rest E (trace w ++ [ELog (login_line (mm w))]) cl (login_call (mm w)))
    as [myinfo0 [e|]] eqn:R.
  - destruct (transient e); [|discriminate].
    apply IH in H as (Hm & Hs & h & cl' & Ht & Hc' & R').
    cbn [did mm trace attempt tick] in Hm, Hs, Ht, Hc', R'.
    rewrite !sleeps_app in Hs. cbn in Hs.
    split; [exact Hm|]. split; [lia|]. exists h, cl'. now rewrite Hc in Hc'.
  - injection H as <- <- <-. cbn [did mm trace].
    split; [reflexivity|]. split.
    + rewrite sleeps_app. cbn. lia.
    + exists (trace w ++ [ELog (login_line (mm w))])%list, cl.
      rewrite <- app_assoc. auto.
Qed.

(** X11. A [Login] that returns an error has replaced the REST handle
    and nothing else: the user, the team, the user map, both channel
    caches and the stream connection are the ones the client had
    before, so a receiver that logs in again in vain goes on reading
    from the connection that failed. *)
Theorem failed_Login_keeps_session fuel w err w' :
  Login E fuel w = Ret (Some err) w' ->
  mm w' = set_Client (Some (NewClient (mm w))) (mm w) /\
  WsClient (mm w') = WsClient (mm w) /\
  User (mm w') = User (mm w) /\
  Team (mm w') = Team (mm w) /\
  Users (mm w') = Users (mm w) /\
  Channels (mm w') = Channels (mm w) /\
  MoreChannels (mm w') = MoreChannels (mm w).
Proof.
  intros H. apply Login_error_from_loop in H.
  apply login_loop_error_inv in H as (Hm & _).
  cbn [having mm] in Hm. rewrite Hm. repeat split.
Qed.

End Connector.

(** ** A login that succeeds *)

Section LoginSuccess.

Context (E : Extern).

(** X12. When the login loop comes back with a user, the team request
    with a team, the dial loop with a connection, and the three cache
    fetches with a profile map and two channel lists, [Login] returns
    nil with every field of the client set from those answers. The
    requests go out in that order; the dial loop starts from a reset
    backoff and dials the websocket path of the server under the
    scheme that goes with the REST scheme; the errors that come with
    the team and the fetched lists are dropped. *)
Theorem Login_populates_session
    fuel w r0 b1 w1 me r1 e1 t ws b2 w2 r2 e2 us r3 e3 c1 r4 e4 c2 :
  let cl := NewClient (mm w) in
  let wsurl := (if cred_NoTLS (Creds (mm w)) then "ws://" else "wss://")
               +:+ cred_Server (Creds (mm w)) +:+ "/api/v1/websocket" in
  let team_call := ECall cl (api.GetMyTeam "") in
  let bearer := "BEARER " +:+ AuthToken E (trace w1 ++ [team_call]) cl in
  let profile_call := ECall cl (api.GetProfiles (model.User_TeamId me) "") in
  login_loop E fuel
    {| Min := Second; Max := 5 * Minute; Jitter := true; attempt := 0 |}
    (having w (set_Client (Some cl) (mm w))) = Ret (inr (Some r0, b1)) w1 ->
  model.Result_Data r0 = model.DUser (Some me) ->
  rest E (trace w1) cl (api.GetMyTeam "") = (Some r1, e1) ->
  model.Result_Data r1 = model.DTeam t ->
  dial_loop E fuel wsurl bearer (Reset b1)
    {| mm := set_Team t (set_User (Some me) (set_Client (Some cl) (mm w)));
       trace := trace w1 ++ [team_call] |} = Ret (ws, b2) w2 ->
  rest E (trace w2) cl (api.GetProfiles (model.User_TeamId me) "") = (Some r2, e2) ->
  model.Result_Data r2 = model.DProfiles us ->
  rest E (trace w2 ++ [profile_call]) cl (api.GetChannels "") = (Some r3, e3) ->
  model.Result_Data r3 = model.DChannelList c1 ->
  rest E (trace w2 ++ [profile_call; ECall cl (api.GetChannels "")]) cl
    (api.GetMoreChannels "") = (Some r4, e4) ->
  model.Result_Data r4 = model.DChannelList c2 ->
  Login E fuel w =
  Ret None
    {| mm := {| Creds := Creds (mm w); Client := Some cl; WsClient := ws;
                Channels := c1; MoreChannels := c2; User := Some me;
                Users := us; Team := t |};
       trace := trace w2 ++ [profile_call; ECall cl (api.GetChannels "");
                             ECall cl (api.GetMoreChannels "")] |}.
Proof.
  intros cl wsurl team_call bearer profile_call HL D0 R1 D1 HD R2 D2 R3 D3 R4 D4.
  assert (Hm1 : mm w1 = mm (having w (set_Client (Some cl) (mm w)))).
  { revert HL. generalize (having w (set_Client (Some cl) (mm w))).
    generalize {| Min := Second; Max := 5 * Minute; Jitter := true; attempt := 0 |}.
    clear. intros b w0. revert b w0.
    induction fuel as [|fuel IH]; intros b w0 H; [discriminate|].
    destruct (Client (mm w0)) as [cl0|] eqn:Hc;
      [|rewrite (login_loop_nil_client E fuel b w0 Hc) in H; discriminate].
    rewrite (login_loop_attempt E fuel b w0 cl0 Hc) in H. cbv zeta in H.
    destruct (rest E _ cl0 _) as [myinfo0 [e|]].
    - destruct (transient e); [|discriminate]. apply IH in H. exact H.
    - now injection H as _ _ <-. }
  destruct (dial_loop_inv E fuel wsurl bearer _ _ _ _ _ HD) as (Hm2 & _).
  cbn [mm having] in Hm1, Hm2.
  destruct w1 as [m1 t1]. cbn [mm trace] in *. subst m1.
  destruct w2 as [m2 t2]. cbn [mm trace] in *. subst m2.
  rewrite Login_enters_loop. fold cl.
  rewrite (bind_Ret _ _ _ _ _ HL).
  cbv zeta. cbn [deref].
  unfold bind at 1. cbn [ret]. rewrite D0. cbn [as_User].
  unfold bind at 1. cbn [ret].
  unfold bind at 1. unfold modify at 1, bind at 1. cbn [get put mm trace].
  erewrite bind_Ret; [| apply call_eq; reflexivity].
  cbn [mm trace]. rewrite R1. cbn [deref].
  unfold bind at 1. cbn [ret]. rewrite D1. cbn [as_Team].
  unfold bind at 1. cbn [ret].
  unfold bind at 1. unfold modify at 1, bind at 1. cbn [get put did mm trace].
  unfold bind at 1. cbn [get].
  unfold bind at 1. cbn [mm Client set_Team set_User set_Client deref ret].
  unfold bind at 1. cbn [history trace].
  fold team_call. fold bearer. fold wsurl.
  change (set_Team t (set_User (Some me)
            {| Creds := Creds (mm w); Client := Some cl; WsClient := WsClient (mm w);
               Channels := Channels (mm w); MoreChannels := MoreChannels (mm w);
               User := User (mm w); Users := Users (mm w); Team := Team (mm w) |}))
    with (set_Team t (set_User (Some me) (set_Client (Some cl) (mm w)))).
  rewrite (bind_Ret _ _ _ _ _ HD).
  unfold bind at 1. unfold modify at 1, bind at 1. cbn [get put mm trace].
  erewrite bind_Ret;
    [| eapply (UpdateUsers_eq E _ me cl r2 e2 us); [reflexivity | reflexivity | exact R2 | exact D2]].
  erewrite bind_Ret;
    [| eapply (UpdateChannels_eq E _ cl r3 e3 c1 r4 e4 c2);
       [ reflexivity | exact R3 | exact D3
       | cbn [having did mm trace]; rewrite <- app_assoc; exact R4 | exact D4 ]].
  unfold ret, having, did, refresh_calls. cbn [mm trace]. f_equal. f_equal.
  now rewrite <- app_assoc.
Qed.

End LoginSuccess.

(** ** What reaches the message channel *)

Lemma emitted_app t1 t2 : emitted (t1 ++ t2) = (emitted t1 ++ emitted t2)%list.
Proof. unfold emitted. apply List.filter_app. Qed.

Lemma quiet_ret {A} (a : A) : quiet (ret a).
Proof. intros w. reflexivity. Qed.

Lemma quiet_panic {A} : quiet (@panic A).
Proof. intros w. reflexivity. Qed.

Lemma quiet_running {A} : quiet (@running A).
Proof. intros w. reflexivity. Qed.

Lemma quiet_bind {A B} (c : M A) (k : A -> M B) :
  quiet c -> (forall a, quiet (k a)) -> quiet (bind c k).
Proof.
  intros Hc Hk w. specialize (Hc w). unfold bind.
  destruct (c w) as [a w1|w1|w1]; cbn [after] in *; [|exact Hc|exact Hc].
  now rewrite (Hk a w1).
Qed.

Lemma quiet_get : quiet get.
Proof. intros w. reflexivity. Qed.

Lemma quiet_put m : quiet (put m).
Proof. intros w. reflexivity. Qed.

Lemma quiet_history : quiet history.
Proof. intros w. reflexivity. Qed.

Lemma quiet_deref {A} (p : option A) : quiet (deref p).
Proof. destruct p; [apply quiet_ret | apply quiet_panic]. Qed.

Lemma quiet_emit e : is_emit e = false -> quiet (emit e).
Proof.
  intros H w. cbn [emit after trace]. rewrite emitted_app.
  unfold emitted at 2. cbn [List.filter]. rewrite H. apply app_nil_r.
Qed.

(** Proves a computation quiet by going through its binds. *)
Ltac quiet_steps :=
  repeat first
    [ match goal with H : _ |- _ => solve [apply H] end
    | apply quiet_ret | apply quiet_panic | apply quiet_running
    | apply quiet_get | apply quiet_put | apply quiet_history
    | apply quiet_deref
    | apply quiet_emit; reflexivity
    | apply quiet_bind; [|intros ?]
    | match goal with
      | |- quiet (match ?x with _ => _ end) => destruct x
      | |- quiet (if ?x then _ else _) => destruct x
      | |- quiet (let '(_, _) := ?x in _) => destruct x
      end ].

Section Channel.

Context (E : Extern).

Lemma quiet_call c : quiet (call E c).
Proof. unfold call. quiet_steps. Qed.

Lemma quiet_modify f : quiet (modify f).
Proof. unfold modify. quiet_steps. Qed.

Lemma quiet_UpdateUsers : quiet (UpdateUsers E).
Proof.
  unfold UpdateUsers, as_Profiles.
  pose proof quiet_call. pose proof quiet_modify. quiet_steps.
Qed.

Lemma quiet_UpdateChannels : quiet (UpdateChannels E).
Proof.
  unfold UpdateChannels, as_ChannelList.
  pose proof quiet_call. pose proof quiet_modify. quiet_steps.
Qed.

Lemma quiet_both_caches : quiet both_caches.
Proof. unfold both_caches. quiet_steps. Qed.

Lemma quiet_GetChannelName id : quiet (GetChannelName E id).
Proof.
  unfold GetChannelName.
  pose proof quiet_UpdateChannels. pose proof quiet_both_caches. quiet_steps.
Qed.

Lemma quiet_parseMessage msg : quiet (parseMessage E msg).
Proof.
  unfold parseMessage, parseActionPost, acting_user, direct_message, user_at.
  pose proof quiet_UpdateUsers. pose proof quiet_GetChannelName. quiet_steps.
Qed.

Lemma quiet_login_loop fuel : forall b, quiet (login_loop E fuel b).
Proof.
  induction fuel as [|fuel IH]; intros b; [apply quiet_running|].
  cbn [login_loop]. unfold log, Sleep, Duration.
  pose proof quiet_call. quiet_steps.
Qed.

Lemma quiet_dial_loop fuel wsurl bearer : forall b, quiet (dial_loop E fuel wsurl bearer b).
Proof.
  induction fuel as [|fuel IH]; intros b; [apply quiet_running|].
  cbn [dial_loop]. unfold log, Sleep, Duration. quiet_steps.
Qed.

Lemma quiet_Login fuel : quiet (Login E fuel).
Proof.
  unfold Login, as_User, as_Team.
  pose proof quiet_call. pose proof quiet_modify.
  pose proof (quiet_login_loop fuel). pose proof (quiet_dial_loop fuel).
  pose proof quiet_UpdateUsers. pose proof quiet_UpdateChannels.
  quiet_steps.
Qed.

(** X13. Sending on the message channel is the last step of a turn of
    the receiver and happens nowhere else: a turn that comes to its end
    has added exactly one message, and it carries the frame the turn
    went on with; a turn that panics or hangs in a retry loop has added
    none; [Login], the two refreshes, the name lookup and the parsing
    add none either, however they end. *)
Theorem only_the_turn_sends :
  (forall fuel rmsg w,
     match WsReceiver_turn E fuel rmsg w with
     | Ret r w' =>
         exists msg,
           emitted (trace w') = (emitted (trace w) ++ [EEmit msg])%list /\
           Msg_Raw msg = r
     | Panic w' | Running w' => emitted (trace w') = emitted (trace w)
     end) /\
  (forall fuel, quiet (Login E fuel)) /\
  (forall msg, quiet (parseMessage E msg)) /\
  quiet (UpdateUsers E) /\
  quiet (UpdateChannels E) /\
  (forall id, quiet (GetChannelName E id)).
Proof.
  split; [|repeat apply conj;
           auto using quiet_Login, quiet_parseMessage, quiet_UpdateUsers,
             quiet_UpdateChannels, quiet_GetChannelName].
  intros fuel rmsg w. unfold WsReceiver_turn.
  unfold bind at 1. cbn [get].
  destruct (WsClient (mm w)) as [ws|]; [|reflexivity].
  unfold bind at 1. cbn [deref ret].
  unfold bind at 1. cbn [history].
  unfold bind at 1. cbn [emit mm trace].
  destruct (ReadJSON E (trace w) ws rmsg) as [rmsg' err].
  set (w0 := {| mm := mm w; trace := trace w ++ [ERead ws] |}).
  assert (H0 : emitted (trace w0) = emitted (trace w)).
  { cbn [w0 trace]. rewrite emitted_app. cbn. apply app_nil_r. }
  set (pre := match err with
              | Some e => bind (log (LogReadError e))
                            (fun _ => bind (Login E fuel) (fun _ => ret tt))
              | None => ret tt
              end).
  assert (Hpre : quiet pre).
  { unfold pre, log. pose proof (quiet_Login fuel). quiet_steps. }
  specialize (Hpre w0). rewrite H0 in Hpre.
  unfold bind at 1. destruct (pre w0) as [[] w1|w1|w1]; cbn [after] in Hpre;
    [|exact Hpre|exact Hpre].
  unfold bind at 1. cbn [get].
  set (msg0 := {| Msg_Raw := rmsg'; Msg_Post := None;
                  Msg_Team := cred_Team (Creds (mm w1)); Msg_Channel := "";
                  Msg_Username := ""; Msg_Text := "" |}).
  pose proof (quiet_parseMessage msg0 w1) as Hp. rewrite Hpre in Hp.
  unfold bind at 1.
  destruct (parseMessage E msg0 w1) as [msg w2|w2|w2] eqn:P; cbn [after] in Hp;
    [|exact Hp|exact Hp].
  apply parseMessage_Raw in P. cbn [msg0 Msg_Raw] in P.
  unfold bind, emit, ret. cbn [trace]. exists msg.
  rewrite emitted_app, Hp. auto.
Qed.

(** X14. A frame that was read without an error and whose action is
    not the post action goes out as it came: the turn makes no request,
    touches no cache, and sends an envelope that holds the frame and
    the team of the credentials, with no post and with empty channel,
    username and text. *)
Theorem other_frames_pass_through fuel rmsg w ws rmsg' :
  WsClient (mm w) = Some ws ->
  ReadJSON E (trace w) ws rmsg = (rmsg', None) ->
  model.Raw_Action rmsg' <> model.ACTION_POSTED ->
  WsReceiver_turn E fuel rmsg w =
  Ret rmsg'
    (did w [ERead ws;
            EEmit {| Msg_Raw := rmsg'; Msg_Post := None;
                     Msg_Team := cred_Team (Creds (mm w)); Msg_Channel := "";
                     Msg_Username := ""; Msg_Text := "" |}]).
Proof.
  intros Hws R Ha. unfold WsReceiver_turn.
  unfold bind at 1. cbn [get]. rewrite Hws.
  unfold bind at 1. cbn [deref ret].
  unfold bind at 1. cbn [history].
  unfold bind at 1. cbn [emit mm trace]. rewrite R.
  unfold bind at 1. cbn [ret].
  unfold bind at 1. cbn [get mm].
  unfold parseMessage. cbn [Msg_Raw].
  apply String.eqb_neq in Ha. rewrite Ha.
  unfold bind, ret, emit, did. cbn [mm trace]. now rewrite <- app_assoc.
Qed.

(** X15. A post frame whose payload does not decode stops the
    receiver: the parser panics on the nil post before it has looked
    at any cache, and so does the turn that read the frame, without
    sending anything. *)
Theorem undecodable_post_stops_receiver fuel rmsg w ws rmsg' :
  WsClient (mm w) = Some ws ->
  ReadJSON E (trace w) ws rmsg = (rmsg', None) ->
  model.Raw_Action rmsg' = model.ACTION_POSTED ->
  PostFromJson E (default "" (model.Raw_Props rmsg' !! "post")) = None ->
  (forall post team channel username text w1,
     parseActionPost E {| Msg_Raw := rmsg'; Msg_Post := post; Msg_Team := team;
                          Msg_Channel := channel; Msg_Username := username;
                          Msg_Text := text |} w1 = Panic w1) /\
  WsReceiver_turn E fuel rmsg w = Panic (did w [ERead ws]).
Proof.
  intros Hws R Ha Hd. split.
  - intros. unfold parseActionPost, payload. cbn [Msg_Raw]. now rewrite Hd.
  - unfold WsReceiver_turn.
    unfold bind at 1. cbn [get]. rewrite Hws.
    unfold bind at 1. cbn [deref ret].
    unfold bind at 1. cbn [history].
    unfold bind at 1. cbn [emit mm trace]. rewrite R.
    unfold bind at 1. cbn [ret].
    unfold bind at 1. cbn [get mm].
    unfold parseMessage. cbn [Msg_Raw].
    apply String.eqb_eq in Ha. rewrite Ha.
    unfold parseActionPost, payload. cbn [Msg_Raw]. now rewrite Hd.
Qed.

(** A name without the separator is kept. *)
Lemma direct_message_ordinary channel w :
  strings.Contains channel "__" = false -> direct_message channel w = Ret channel w.
Proof. intros H. unfold direct_message. now rewrite H. Qed.

(** X16. A post by a user the user map knows, in a channel one of the
    caches knows and whose name has no ["__"] in it, is normalized from
    the caches alone: no request is made, nothing is refreshed, and
    the message carries the username, the channel name, the text and
    the post. *)
Theorem cached_post_needs_no_request rmsg w d u cs ms c :
  PostFromJson E (payload rmsg) = Some d ->
  Users (mm w) !! model.Post_UserId d = Some u ->
  Channels (mm w) = Some cs ->
  MoreChannels (mm w) = Some ms ->
  List.find (by_id (model.Post_ChannelId d))
    (model.ChannelList_Channels cs ++ model.ChannelList_Channels ms) = Some c ->
  strings.Contains (model.Channel_Name c) "__" = false ->
  parseActionPost E rmsg w =
  Ret {| Msg_Raw := Msg_Raw rmsg; Msg_Post := Some d; Msg_Team := Msg_Team rmsg;
         Msg_Channel := model.Channel_Name c;
         Msg_Username := model.User_Username u;
         Msg_Text := model.Post_Message d |} w.
Proof.
  intros Hd Hu H1 H2 Hf Hn. unfold parseActionPost. rewrite Hd.
  unfold bind at 1. cbn [deref ret].
  rewrite (bind_Ret _ _ _ _ _ (acting_user_hit E _ w u Hu)).
  rewrite (bind_Ret _ _ _ _ _ (GetChannelName_hit E _ w cs ms c H1 H2 Hf)).
  now rewrite (bind_Ret _ _ _ _ _ (direct_message_ordinary _ w Hn)).
Qed.

(** X17. A post in a channel that neither cache knows, and that the
    refresh does not bring either, is not dropped: it is normalized
    with the empty string for its channel, after the one refresh. *)
Theorem unknown_channel_gives_empty_name
    rmsg w d u cs ms cl r1 e1 cs' r2 e2 ms' :
  PostFromJson E (payload rmsg) = Some d ->
  Users (mm w) !! model.Post_UserId d = Some u ->
  Channels (mm w) = Some cs ->
  MoreChannels (mm w) = Some ms ->
  Client (mm w) = Some cl ->
  rest E (trace w) cl (api.GetChannels "") = (Some r1, e1) ->
  model.Result_Data r1 = model.DChannelList (Some cs') ->
  rest E (trace w ++ [ECall cl (api.GetChannels "")]) cl (api.GetMoreChannels "")
    = (Some r2, e2) ->
  model.Result_Data r2 = model.DChannelList (Some ms') ->
  List.find (by_id (model.Post_ChannelId d))
    (model.ChannelList_Channels cs ++ model.ChannelList_Channels ms) = None ->
  List.find (by_id (model.Post_ChannelId d))
    (model.ChannelList_Channels cs' ++ model.ChannelList_Channels ms') = None ->
  parseActionPost E rmsg w =
  Ret {| Msg_Raw := Msg_Raw rmsg; Msg_Post := Some d; Msg_Team := Msg_Team rmsg;
         Msg_Channel := "";
         Msg_Username := model.User_Username u;
         Msg_Text := model.Post_Message d |}
      (having (did w (refresh_calls cl))
         (set_MoreChannels (Some ms') (set_Channels (Some cs') (mm w)))).
Proof.
  intros Hd Hu H1 H2 Hc R1 D1 R2 D2 Hf Hf'. unfold parseActionPost. rewrite Hd.
  unfold bind at 1. cbn [deref ret].
  rewrite (bind_Ret _ _ _ _ _ (acting_user_hit E _ w u Hu)).
  rewrite (bind_Ret _ _ _ _ _
             (GetChannelName_miss E _ w cs ms cl _ _ _ _ _ _ H1 H2 Hf Hc R1 D1 R2 D2)).
  unfold name_of. rewrite Hf'.
  now rewrite (bind_Ret _ _ _ _ _ (direct_message_ordinary "" _ eq_refl)).
Qed.

(** X18. In a direct-message channel the participant shown is the
    first one, unless the session user is the first one; then it is
    the second. The session user need not be either of them. The user
    map is only read for the participant shown: when it has no profile
    for that identifier the normalization panics, and no profile fetch
    is tried as it is for the acting user. *)
Theorem direct_message_shown_participant
    rmsg w0 w1 w2 d u name U1 U2 rest me :
  PostFromJson E (payload rmsg) = Some d ->
  acting_user E (model.Post_UserId d) w0 = Ret u w1 ->
  GetChannelName E (model.Post_ChannelId d) w1 = Ret name w2 ->
  strings.Split name "__" = U1 :: U2 :: rest ->
  User (mm w2) = Some me ->
  let shown := if String.eqb U1 (model.User_Id me) then U2 else U1 in
  parseActionPost E rmsg w0 =
  match Users (mm w2) !! shown with
  | Some uo =>
      Ret {| Msg_Raw := Msg_Raw rmsg; Msg_Post := Some d; Msg_Team := Msg_Team rmsg;
             Msg_Channel := model.User_Username uo;
             Msg_Username := model.User_Username u;
             Msg_Text := model.Post_Message d |} w2
  | None => Panic w2
  end.
Proof.
  intros Hd Hu Hn Hs Hme shown. unfold parseActionPost. rewrite Hd.
  unfold bind at 1. cbn [deref ret].
  rewrite (bind_Ret _ _ _ _ _ Hu).
  rewrite (bind_Ret _ _ _ _ _ Hn).
  assert (Hdm : direct_message name w2 =
                match Users (mm w2) !! shown with
                | Some uo => Ret (model.User_Username uo) w2
                | None => Panic w2
                end).
  { unfold direct_message.
    rewrite (Split_two_Contains _ _ _ _ _ Hs), Hs.
    change ((U1 :: U2 :: rest) !! 0%nat) with (Some U1).
    change ((U1 :: U2 :: rest) !! 1%nat) with (Some U2).
    unfold bind at 1. cbn [deref ret].
    unfold bind at 1. cbn [get].
    unfold bind at 1. rewrite Hme. cbn [deref ret].
    unfold shown. destruct (String.eqb U1 (model.User_Id me)); cbn [negb].
    - unfold bind at 1. cbn [deref ret].
      rewrite (bind_Ret _ _ _ _ _ (user_at_eq U2 w2)).
      now destruct (Users (mm w2) !! U2).
    - rewrite (bind_Ret _ _ _ _ _ (user_at_eq U1 w2)).
      now destruct (Users (mm w2) !! U1). }
  unfold bind at 1. rewrite Hdm.
  now destruct (Users (mm w2) !! shown).
Qed.

End Channel.

(** ** The properties on the test doubles *)

Import double.

Lemma PostMessage_unknown_channel_witness :
  Channels (mm (start loaded)) = Some {| model.ChannelList_Channels := [town; ab] |} /\
  MoreChannels (mm (start loaded)) = Some {| model.ChannelList_Channels := [dm] |} /\
  Client (mm (start loaded)) = Some handle /\
  PostMessage healthy "nowhere" "hi" (start loaded) =
  Ret tt (did (start loaded)
            [ECall handle (api.CreatePost
               {| model.Post_UserId := ""; model.Post_ChannelId := "";
                  model.Post_Message := "hi" |})]).
Proof.
  refine (conj eq_refl (conj eq_refl (conj eq_refl _))).
  exact (PostMessage_submits_unconditionally healthy "nowhere" "hi" (start loaded)
           _ _ _ eq_refl eq_refl eq_refl).
Defined.

Lemma JoinChannel_leading_marker_witness :
  Channels (mm (start loaded)) = Some {| model.ChannelList_Channels := [town; ab] |} /\
  MoreChannels (mm (start loaded)) = Some {| model.ChannelList_Channels := [dm] |} /\
  Client (mm (start loaded)) = Some handle /\
  JoinChannel healthy "#town" (start loaded) =
  Ret None (did (start loaded) [ECall handle (api.JoinChannel "c1")]).
Proof.
  refine (conj eq_refl (conj eq_refl (conj eq_refl _))).
  exact (proj2 (proj2 (JoinChannel_drops_first_marker healthy "#town" (start loaded)
                         _ _ _ eq_refl eq_refl eq_refl))).
Defined.

(** C7 as the specification words it fails on a name with the marker
    inside: the specification resolves ["a#b"], finds nothing and makes
    no request; the code resolves ["ab"] and joins it. *)
Lemma JoinChannel_inner_marker_counterexample :
  join_channel_spec healthy "a#b" (start loaded) =
    Ret (Some (errors_New "failed to join")) (start loaded) /\
  JoinChannel healthy "a#b" (start loaded) =
    Ret None (did (start loaded) [ECall handle (api.JoinChannel "c3")]) /\
  JoinChannel healthy "a#b" (start loaded) <>
    join_channel_spec healthy "a#b" (start loaded).
Proof.
  assert (H1 : join_channel_spec healthy "a#b" (start loaded) =
               Ret (Some (errors_New "failed to join")) (start loaded))
    by reflexivity.
  assert (H2 : JoinChannel healthy "a#b" (start loaded) =
               Ret None (did (start loaded) [ECall handle (api.JoinChannel "c3")]))
    by reflexivity.
  refine (conj H1 (conj H2 _)).
  rewrite H1, H2. discriminate.
Qed.

Lemma history_errors_witness :
  Client (mm (start loaded)) = Some handle /\
  GetPostsSince down "c1" 0 (start loaded) =
    Ret None (did (start loaded) [ECall handle (api.GetPostsSince "c1" 0)]) /\
  SearchPosts down "hello" (start loaded) =
    Ret None (did (start loaded) [ECall handle (api.SearchPosts "hello")]) /\
  GetPosts down "c1" 10 (start loaded) =
    Ret None (did (start loaded) [ECall handle (api.GetPosts "c1" 0 10 "")]) /\
  (exists e data,
     UpdateChannelHeader down "c1" "news" (start loaded) =
     Ret tt (did (start loaded)
               [ELog (LogUpdatingHeader "c1" "news");
                ECall handle (api.UpdateChannelHeader data);
                ELog (LogAppError e)])) /\
  (exists e,
     UpdateLastViewed down "c1" (start loaded) =
     Ret tt (did (start loaded)
               [ELog (LogPostingLastview "c1");
                ECall handle (api.UpdateLastViewedAt "c1");
                ELog (LogAppError e)])).
Proof.
  destruct (history_errors_give_nil_updates_swallow down (start loaded) handle eq_refl)
    as (P1 & P2 & P3 & P4 & P5).
  split; [reflexivity|].
  split; [exact (P1 "c1" 0%Z _ _ eq_refl)|].
  split; [exact (P2 "hello" _ _ eq_refl)|].
  split; [exact (P3 "c1" 10%Z _ _ eq_refl)|].
  split.
  - eexists _, _. exact (P4 "c1" "news" _ _ eq_refl).
  - eexists. exact (P5 "c1" _ _ eq_refl).
Defined.

Lemma GetChannelName_still_absent_witness :
  Channels (mm (start fresh)) = Some {| model.ChannelList_Channels := [] |} /\
  MoreChannels (mm (start fresh)) = Some {| model.ChannelList_Channels := [] |} /\
  Client (mm (start fresh)) = Some handle /\
  GetChannelName healthy "zz" (start fresh) =
  Ret "" (having (did (start fresh)
                    [ECall handle (api.GetChannels ""); ECall handle (api.GetMoreChannels "")])
            (set_MoreChannels (Some {| model.ChannelList_Channels := [dm] |})
               (set_Channels (Some {| model.ChannelList_Channels := [town; ab] |})
                  fresh))).
Proof.
  refine (conj eq_refl (conj eq_refl (conj eq_refl _))).
  exact (GetChannelName_refreshes_once_then_empty healthy "zz" (start fresh)
           _ _ handle _ None _ _ None _
           eq_refl eq_refl eq_refl eq_refl eq_refl eq_refl eq_refl).
Defined.

Lemma only_name_lookup_refreshes_witness :
  Channels (mm (start fresh)) = Some {| model.ChannelList_Channels := [] |} /\
  MoreChannels (mm (start fresh)) = Some {| model.ChannelList_Channels := [] |} /\
  Client (mm (start fresh)) = Some handle /\
  GetChannelName healthy "c1" (start fresh) =
    Ret "town"
      (having (did (start fresh) (refresh_calls handle))
         (set_MoreChannels (Some {| model.ChannelList_Channels := [dm] |})
            (set_Channels (Some {| model.ChannelList_Channels := [town; ab] |})
               fresh))) /\
  GetChannelHeader "c1" (start fresh) = Ret "" (start fresh) /\
  GetChannelId "town" (start fresh) = Ret "" (start fresh).
Proof.
  destruct (only_name_lookup_refreshes healthy "c1" "town" (start fresh)
              _ _ handle _ None _ _ None _
              eq_refl eq_refl eq_refl eq_refl eq_refl eq_refl eq_refl)
    as (P1 & P2 & P3).
  refine (conj eq_refl (conj eq_refl (conj eq_refl _))).
  exact (conj (P1 eq_refl) (conj P2 P3)).
Defined.

(** C5 as the specification words it fails for the header lookup: on
    empty caches the code answers the empty string and asks the backend
    nothing, where a refresh-and-retry would have found the header. *)
Lemma GetChannelHeader_no_refresh_counterexample :
  GetChannelHeader "c1" (start fresh) = Ret "" (start fresh) /\
  header_for_id_spec healthy "c1" (start fresh) =
    Ret "welcome"
      (having (did (start fresh) (refresh_calls handle))
         (set_MoreChannels (Some {| model.ChannelList_Channels := [dm] |})
            (set_Channels (Some {| model.ChannelList_Channels := [town; ab] |})
               fresh))) /\
  GetChannelHeader "c1" (start fresh) <> header_for_id_spec healthy "c1" (start fresh).
Proof.
  assert (H1 : GetChannelHeader "c1" (start fresh) = Ret "" (start fresh))
    by reflexivity.
  assert (H2 : header_for_id_spec healthy "c1" (start fresh) =
               Ret "welcome"
                 (having (did (start fresh) (refresh_calls handle))
                    (set_MoreChannels (Some {| model.ChannelList_Channels := [dm] |})
                       (set_Channels (Some {| model.ChannelList_Channels := [town; ab] |})
                          fresh))))
    by reflexivity.
  refine (conj H1 (conj H2 _)).
  rewrite H1, H2. discriminate.
Qed.

Lemma direct_message_shows_counterpart_witness :
  PostFromJson healthy (payload bobs_frame) =
    Some {| model.Post_UserId := "u2"; model.Post_ChannelId := "c2";
            model.Post_Message := "hello" |} /\
  acting_user healthy "u2" (start loaded) = Ret bob (start loaded) /\
  GetChannelName healthy "c2" (start loaded) = Ret "u1__u2" (start loaded) /\
  strings.Split "u1__u2" "__" = ["u1"; "u2"] /\
  User (mm (start loaded)) = Some alice /\
  Users (mm (start loaded)) !! "u2" = Some bob /\
  exists msg,
    parseActionPost healthy bobs_frame (start loaded) = Ret msg (start loaded) /\
    Msg_Channel msg = "bob" /\
    Msg_Username msg = "bob" /\
    Msg_Text msg = "hello" /\
    Msg_Post msg = Some {| model.Post_UserId := "u2"; model.Post_ChannelId := "c2";
                           model.Post_Message := "hello" |}.
Proof.
  refine (conj eq_refl (conj eq_refl (conj eq_refl (conj eq_refl
           (conj eq_refl (conj eq_refl _)))))).
  exact (direct_message_shows_counterpart healthy bobs_frame
           (start loaded) (start loaded) (start loaded) _ bob "u1__u2" "u1" "u2" []
           alice "u2" bob
           eq_refl eq_refl eq_refl eq_refl eq_refl (or_introl (conj eq_refl eq_refl))
           eq_refl).
Defined.


(** C10 on a backend that is down. A fetch that fails comes back
    without a result, and both refreshes dereference it: they panic
    instead of returning nil. With a result in hand the
    error that comes with it is dropped and nil is returned. *)
Theorem refresh_panics_on_failed_fetch :
  UpdateUsers down (start loaded) =
    Panic (did (start loaded) [ECall handle (api.GetProfiles "t1" "")]) /\
  UpdateChannels down (start loaded) =
    Panic (did (start loaded) [ECall handle (api.GetChannels "")]) /\
  (forall E w me cl e,
     User (mm w) = Some me ->
     Client (mm w) = Some cl ->
     rest E (trace w) cl (api.GetProfiles (model.User_TeamId me) "") = (None, e) ->
     UpdateUsers E w =
     Panic (did w [ECall cl (api.GetProfiles (model.User_TeamId me) "")])) /\
  (forall E w cl e,
     Client (mm w) = Some cl ->
     rest E (trace w) cl (api.GetChannels "") = (None, e) ->
     UpdateChannels E w = Panic (did w [ECall cl (api.GetChannels "")])) /\
  (forall E w me cl r e us,
     User (mm w) = Some me ->
     Client (mm w) = Some cl ->
     rest E (trace w) cl (api.GetProfiles (model.User_TeamId me) "") = (Some r, e) ->
     model.Result_Data r = model.DProfiles us ->
     UpdateUsers E w =
     Ret None (having (did w [ECall cl (api.GetProfiles (model.User_TeamId me) "")])
                 (set_Users us (mm w)))).
Proof.
  split; [|split; [|split; [|split]]].
  - exact (UpdateUsers_nil_result down (start loaded) alice handle _
             eq_refl eq_refl eq_refl).
  - exact (UpdateChannels_nil_result down (start loaded) handle _ eq_refl eq_refl).
  - exact UpdateUsers_nil_result.
  - exact UpdateChannels_nil_result.
  - exact UpdateUsers_eq.
Qed.

(** C1 on a stream that delivers one post and then breaks. The first
    turn reads the post and sends its message. The second turn's read
    fails; the turn logs in again and then, instead of going back to
    reading, parses the frame still held by the variable and sends the
    same message once more. So it is for every backend: the turn whose
    read failed logs, runs [Login], and ends by sending, as every
    returning turn does. *)
Theorem WsReceiver_emits_after_failed_read :
  let w1 := did (start loaded) [ERead 7; EEmit bobs_message] in
  let w2 := did w1 ([ERead 7; ELog (LogReadError "unexpected EOF")] ++ relogin
                    ++ [EEmit bobs_message]) in
  (WsReceiver_turn healthy 1 {| model.Raw_Action := ""; model.Raw_Props := ∅ |}
     (start loaded) = Ret (Msg_Raw bobs_message) w1 /\
   ReadJSON healthy (trace w1) 7 (Msg_Raw bobs_message) =
     (Msg_Raw bobs_message, Some "unexpected EOF") /\
   WsReceiver_turn healthy 1 (Msg_Raw bobs_message) w1 = Ret (Msg_Raw bobs_message) w2 /\
   emitted (trace w2) = [EEmit bobs_message; EEmit bobs_message]) /\
  (forall E fuel rmsg w ws rmsg' e res w1 msg w2,
     WsClient (mm w) = Some ws ->
     ReadJSON E (trace w) ws rmsg = (rmsg', Some e) ->
     Login E fuel (did w [ERead ws; ELog (LogReadError e)]) = Ret res w1 ->
     parseMessage E {| Msg_Raw := rmsg'; Msg_Post := None;
                       Msg_Team := cred_Team (Creds (mm w1)); Msg_Channel := "";
                       Msg_Username := ""; Msg_Text := "" |} w1 = Ret msg w2 ->
     WsReceiver_turn E fuel rmsg w = Ret rmsg' (did w2 [EEmit msg])) /\
  (forall E fuel rmsg w r w',
     WsReceiver_turn E fuel rmsg w = Ret r w' ->
     exists ws t msg,
       WsClient (mm w) = Some ws /\
       r = fst (ReadJSON E (trace w) ws rmsg) /\
       trace w' = (t ++ [EEmit msg])%list /\
       Msg_Raw msg = r).
Proof.
  intros w1 w2.
  split; [|split; [exact WsReceiver_turn_failed_read | exact WsReceiver_turn_emits]].
  split; [vm_compute; reflexivity|].
  split; [vm_compute; reflexivity|].
  split; vm_compute; reflexivity.
Qed.


Lemma header_update_is_not_cached_witness :
  let w' := did (start loaded)
              [ELog (LogUpdatingHeader "c1" "news");
               ECall handle (api.UpdateChannelHeader
                               (<["channel_header" := "news"]>
                                  (<["channel_id" := "c1"]> ∅)))] in
  Channels (mm (start loaded)) = Some {| model.ChannelList_Channels := [town; ab] |} /\
  MoreChannels (mm (start loaded)) = Some {| model.ChannelList_Channels := [dm] |} /\
  UpdateChannelHeader healthy "c1" "news" (start loaded) = Ret tt w' /\
  GetChannelHeader "c1" w' = Ret "welcome" w'.
Proof.
  intros w'. refine (conj eq_refl (conj eq_refl (conj eq_refl _))).
  exact (header_update_is_not_cached healthy "c1" "news" (start loaded) _ _ w'
           eq_refl eq_refl eq_refl).
Defined.

Lemma lookups_round_trip_witness :
  List.NoDup (List.map model.Channel_Id [town; ab; dm]) /\
  List.NoDup (List.map model.Channel_Name [town; ab; dm]) /\
  (GetChannelId "town" (start loaded) = Ret "c1" (start loaded) /\
   GetChannelName healthy "c1" (start loaded) = Ret "town" (start loaded)) /\
  (GetChannelName healthy "c2" (start loaded) = Ret "u1__u2" (start loaded) /\
   GetChannelId "u1__u2" (start loaded) = Ret "c2" (start loaded)).
Proof.
  assert (N1 : List.NoDup (List.map model.Channel_Id [town; ab; dm])).
  { apply NoDup_ListNoDup. apply (bool_decide_unpack _). vm_compute. exact I. }
  assert (N2 : List.NoDup (List.map model.Channel_Name [town; ab; dm])).
  { apply NoDup_ListNoDup. apply (bool_decide_unpack _). vm_compute. exact I. }
  destruct (lookups_round_trip healthy (start loaded) _ _ eq_refl eq_refl) as [P1 P2].
  refine (conj N1 (conj N2 (conj _ _))).
  - exact (P1 N1 "town" town eq_refl).
  - exact (P2 N2 "c2" dm eq_refl).
Defined.

Lemma joined_cache_takes_precedence_witness :
  let shadowed := {| model.Channel_Id := "c1"; model.Channel_Name := "town";
                     model.Channel_Header := "stale" |} in
  let w := start (set_MoreChannels
                    (Some {| model.ChannelList_Channels := [shadowed] |}) loaded) in
  Channels (mm w) = Some {| model.ChannelList_Channels := [town; ab] |} /\
  MoreChannels (mm w) = Some {| model.ChannelList_Channels := [shadowed] |} /\
  GetChannelName healthy "c1" w = Ret "town" w /\
  GetChannelHeader "c1" w = Ret "welcome" w /\
  GetChannelId "town" w = Ret "c1" w.
Proof.
  intros shadowed w.
  destruct (joined_cache_takes_precedence healthy w _ _ town eq_refl eq_refl)
    as [P1 P2].
  refine (conj eq_refl (conj eq_refl _)).
  exact (conj (proj1 (P1 "c1" eq_refl)) (conj (proj2 (P1 "c1" eq_refl)) (P2 "town" eq_refl))).
Defined.

Lemma history_success_returns_backend_list_witness :
  Client (mm (start loaded)) = Some handle /\
  GetPostsSince healthy "c1" 0 (start loaded) =
    Ret (Some {| model.PostList_Order := []; model.PostList_Posts := ∅ |})
      (did (start loaded) [ECall handle (api.GetPostsSince "c1" 0)]) /\
  SearchPosts healthy "hello" (start loaded) =
    Ret (Some {| model.PostList_Order := []; model.PostList_Posts := ∅ |})
      (did (start loaded) [ECall handle (api.SearchPosts "hello")]) /\
  GetPosts healthy "c1" 10 (start loaded) =
    Ret (Some {| model.PostList_Order := []; model.PostList_Posts := ∅ |})
      (did (start loaded) [ECall handle (api.GetPosts "c1" 0 10 "")]).
Proof.
  destruct (history_success_returns_backend_list healthy (start loaded) handle eq_refl)
    as (P1 & P2 & P3).
  refine (conj eq_refl (conj _ (conj _ _))).
  - exact (P1 "c1" 0%Z).
  - exact (P2 "hello").
  - exact (P3 "c1" 10%Z).
Defined.


Lemma refresh_can_stop_halfway_witness :
  Client (mm (start fresh)) = Some handle /\
  UpdateChannels halfway.extern (start fresh) =
    Panic (having (did (start fresh) (refresh_calls handle))
             (set_Channels (Some {| model.ChannelList_Channels := [town; ab] |}) fresh)) /\
  MoreChannels
    (set_Channels (Some {| model.ChannelList_Channels := [town; ab] |}) fresh)
  = Some {| model.ChannelList_Channels := [] |}.
Proof.
  refine (conj eq_refl _).
  exact (refresh_can_stop_halfway halfway.extern (start fresh) handle _ None _ _
           eq_refl eq_refl eq_refl eq_refl).
Defined.

Lemma dial_loop_retries_until_connected_witness :
  exists b' w',
    dial_loop flaky.extern 4 "wss://chat.example.org/api/v1/websocket" "BEARER token"
      {| Min := Second; Max := 5 * Minute; Jitter := true; attempt := 0 |}
      (start fresh) = Ret (Some 7, b') w' /\
    mm w' = fresh /\
    attempt b' + 0 = 0 + sleeps (trace w') /\
    attempt b' = 3 /\
    slept (trace w') = [1 * Second; 2 * Second; 3 * Second]%Z.
Proof.
  eexists _, _.
  match goal with
  | |- ?A /\ _ => assert (H : A) by (vm_compute; reflexivity)
  end.
  destruct (dial_loop_retries_until_connected flaky.extern
              "wss://chat.example.org/api/v1/websocket" "BEARER token")
    as (_ & _ & P3 & _).
  destruct (P3 _ _ _ _ _ _ H) as (Hm & Hs & _).
  refine (conj H (conj Hm (conj Hs (conj eq_refl _)))).
  vm_compute. reflexivity.
Defined.

Lemma login_loop_counts_its_sleeps_witness :
  exists myinfo b' w',
    login_loop flaky.extern 3
      {| Min := Second; Max := 5 * Minute; Jitter := true; attempt := 0 |}
      (start fresh) = Ret (inr (myinfo, b')) w' /\
    mm w' = fresh /\
    attempt b' + 0 = 0 + sleeps (trace w') /\
    attempt b' = 2.
Proof.
  eexists _, _, _.
  match goal with
  | |- ?A /\ _ => assert (H : A) by (vm_compute; reflexivity)
  end.
  destruct (login_loop_counts_its_sleeps flaky.extern _ _ _ _ _ _ H) as (Hm & Hs & _).
  exact (conj H (conj Hm (conj Hs eq_refl))).
Defined.

Lemma failed_Login_keeps_session_witness :
  exists err w',
    Login rejecting 1 (start loaded) = Ret (Some err) w' /\
    WsClient (mm w') = Some 7 /\
    Users (mm w') = profiles /\
    Channels (mm w') = Some {| model.ChannelList_Channels := [town; ab] |}.
Proof.
  eexists _, _.
  match goal with
  | |- ?A /\ _ => assert (H : A) by (vm_compute; reflexivity)
  end.
  destruct (failed_Login_keeps_session rejecting _ _ _ _ H)
    as (_ & H1 & _ & _ & H2 & H3 & _).
  exact (conj H (conj H1 (conj H2 H3))).
Defined.

Lemma Login_populates_session_witness :
  exists t,
    Login flaky.extern 3
      (start (New "alice@example.org" "secret" "crew" "chat.example.org")) =
    Ret None {| mm := loaded; trace := t |} /\
    slept t = [1 * Second; 2 * Second; 1 * Second]%Z /\
    calls t =
      [ECall handle (api.LoginByEmail "crew" "alice@example.org" "secret");
       ECall handle (api.LoginByEmail "crew" "alice@example.org" "secret");
       ECall handle (api.LoginByEmail "crew" "alice@example.org" "secret");
       ECall handle (api.GetMyTeam "");
       ECall handle (api.GetProfiles "t1" "");
       ECall handle (api.GetChannels "");
       ECall handle (api.GetMoreChannels "")].
Proof.
  eexists. split; [|split].
  - eapply (Login_populates_session flaky.extern 3
              (start (New "alice@example.org" "secret" "crew" "chat.example.org"))
              _ _ _ alice _ None (Some team) (Some 7) _ _ _ None profiles
              _ None (Some {| model.ChannelList_Channels := [town; ab] |})
              _ None (Some {| model.ChannelList_Channels := [dm] |}));
      vm_compute; reflexivity.
  - vm_compute. reflexivity.
  - vm_compute. reflexivity.
Defined.

Lemma other_frames_pass_through_witness :
  WsReceiver_turn streams.typing 1
    {| model.Raw_Action := ""; model.Raw_Props := ∅ |} (start loaded) =
  Ret {| model.Raw_Action := "typing"; model.Raw_Props := ∅ |}
    (did (start loaded)
       [ERead 7;
        EEmit {| Msg_Raw := {| model.Raw_Action := "typing"; model.Raw_Props := ∅ |};
                 Msg_Post := None; Msg_Team := "crew"; Msg_Channel := "";
                 Msg_Username := ""; Msg_Text := "" |}]).
Proof.
  apply (other_frames_pass_through streams.typing 1 _ (start loaded) 7%nat);
    [reflexivity | reflexivity | discriminate].
Defined.

Lemma undecodable_post_stops_receiver_witness :
  PostFromJson streams.garbled "garbage" = None /\
  WsReceiver_turn streams.garbled 1
    {| model.Raw_Action := ""; model.Raw_Props := ∅ |} (start loaded) =
  Panic (did (start loaded) [ERead 7]).
Proof.
  refine (conj eq_refl _).
  exact (proj2 (undecodable_post_stops_receiver streams.garbled 1 _ (start loaded)
                  7%nat _ eq_refl eq_refl eq_refl eq_refl)).
Defined.

Lemma cached_post_needs_no_request_witness :
  parseActionPost healthy (streams.envelope "u2 c1 hi") (start loaded) =
  Ret {| Msg_Raw := Msg_Raw (streams.envelope "u2 c1 hi");
         Msg_Post := Some {| model.Post_UserId := "u2"; model.Post_ChannelId := "c1";
                             model.Post_Message := "hi" |};
         Msg_Team := "crew"; Msg_Channel := "town"; Msg_Username := "bob";
         Msg_Text := "hi" |} (start loaded).
Proof.
  exact (cached_post_needs_no_request healthy (streams.envelope "u2 c1 hi")
           (start loaded) _ bob _ _ town
           eq_refl eq_refl eq_refl eq_refl eq_refl eq_refl).
Defined.

Lemma unknown_channel_gives_empty_name_witness :
  parseActionPost healthy (streams.envelope "u2 zz hi") (start loaded) =
  Ret {| Msg_Raw := Msg_Raw (streams.envelope "u2 zz hi");
         Msg_Post := Some {| model.Post_UserId := "u2"; model.Post_ChannelId := "zz";
                             model.Post_Message := "hi" |};
         Msg_Team := "crew"; Msg_Channel := ""; Msg_Username := "bob";
         Msg_Text := "hi" |}
      (did (start loaded) (refresh_calls handle)).
Proof.
  exact (unknown_channel_gives_empty_name healthy (streams.envelope "u2 zz hi")
           (start loaded) _ bob _ _ handle _ None _ _ None _
           eq_refl eq_refl eq_refl eq_refl eq_refl eq_refl eq_refl eq_refl eq_refl
           eq_refl eq_refl).
Defined.

Lemma direct_message_shown_participant_witness :
  let alone := start (set_Users (<["u1" := alice]> ∅) loaded) in
  parseActionPost healthy (streams.envelope "u1 c2 hi") alone = Panic alone /\
  parseActionPost healthy (streams.envelope "u1 c2 hi") (start loaded) =
  Ret {| Msg_Raw := Msg_Raw (streams.envelope "u1 c2 hi");
         Msg_Post := Some {| model.Post_UserId := "u1"; model.Post_ChannelId := "c2";
                             model.Post_Message := "hi" |};
         Msg_Team := "crew"; Msg_Channel := "bob"; Msg_Username := "alice";
         Msg_Text := "hi" |} (start loaded).
Proof.
  intros alone. split.
  - exact (direct_message_shown_participant healthy (streams.envelope "u1 c2 hi")
             alone alone alone _ alice "u1__u2" "u1" "u2" [] alice
             eq_refl eq_refl eq_refl eq_refl eq_refl).
  - exact (direct_message_shown_participant healthy (streams.envelope "u1 c2 hi")
             (start loaded) (start loaded) (start loaded) _ alice "u1__u2" "u1" "u2" []
             alice eq_refl eq_refl eq_refl eq_refl eq_refl).
Defined.
